(** * The GeoJSON converter of the GNCV dashboard ([app.py])

    A shallow embedding of [convert_to_geojson] (app.py, lines 16-62) and of
    the pandas and Python primitives it calls, followed by the properties of
    the converter: coordinate order, the missing-coordinate filter, the
    normalisation of property values, the errors it raises and when. *)

From Stdlib Require Import Floats.SpecFloat.
From stdpp Require Import gmap strings list pretty.

Open Scope Z_scope.

(** ** Python values

    A cell of the frame is the Python object that [row[col]] evaluates to
    inside the loop of the converter.  The classes are the ones the code
    tells apart: the four of its [isinstance] test ([pd.Timestamp],
    [np.integer], [np.floating], [np.bool_]), the builtin classes JSON has a
    literal for, and two date classes that are none of these ([pd.NaT], whose
    class is [NaTType], and [datetime.date]).  A float, builtin or numpy, is
    an IEEE 754 binary64 value; a (timezone-naive) Timestamp is its count of
    nanoseconds since the epoch; a numpy integer lies in the range of its
    dtype, a bound nothing here depends on. *)
Inductive pyval :=
  | PyNone
  | PyBool (b : bool)
  | PyInt (z : Z)
  | PyFloat (f : spec_float)
  | PyStr (s : string)
  | NpBool (b : bool)
  | NpInteger (z : Z)
  | NpFloating (f : spec_float)
  | Timestamp (ns : Z)
  | NaT
  | PyDate (year month day : nat).

(** The classes of the tuple in [isinstance(row[col], (...))]. *)
Inductive pyclass := pd_Timestamp | np_integer | np_floating | np_bool_.

Definition isinstance1 (v : pyval) (c : pyclass) : bool :=
  match c, v with
  | pd_Timestamp, Timestamp _ => true
  | np_integer, NpInteger _ => true
  | np_floating, NpFloating _ => true
  | np_bool_, NpBool _ => true
  | _, _ => false
  end.

(** [isinstance(v, (c1, ..., cn))]: an instance of one of the classes. *)
Definition isinstance (v : pyval) (cs : list pyclass) : bool :=
  existsb (isinstance1 v) cs.

(** ** Exceptions and results *)

(** [KeyError] carries the labels that were not found: [row[col]] reports
    the one label, [dropna(subset=...)] the list of absent ones. *)
Inductive exn :=
  | KeyError (missing : list string)
  | TypeError
  | ValueError
  | OverflowError.

Inductive result (A : Type) :=
  | Ok (a : A)
  | Raise (e : exn).
Arguments Ok {A} a.
Arguments Raise {A} e.

Global Instance result_ret : MRet result := λ A a, Ok a.
Global Instance result_bind : MBind result := λ A B k r,
  match r with
  | Ok a => k a
  | Raise e => Raise e
  end.

(** ** Floats *)

Definition is_nan (f : spec_float) : bool :=
  match f with S754_nan => true | _ => false end.

Definition is_finite (f : spec_float) : bool :=
  match f with S754_zero _ | S754_finite _ _ _ => true | _ => false end.

(** The binary64 nearest to an integer (ties to even), infinite on overflow. *)
Definition Z_to_binary64 (z : Z) : spec_float :=
  binary_normalize 53 1024 z 0 false.

(** [int.__float__]: "int too large to convert to float" past the range. *)
Definition int_to_float (z : Z) : result spec_float :=
  let f := Z_to_binary64 z in
  if is_finite f then Ok f else Raise OverflowError.

(** ** The text functions of the runtime

    What Python and numpy print for a float, what pandas prints for a
    Timestamp and which texts [float()] reads are algorithms of the runtime,
    not of this program: the embedding takes them as an interface.
    [float_of_str s = None] stands for the [ValueError] of [float(s)]. *)
Class PyText := {
  repr_float : spec_float → string;
  str_floating : spec_float → string;
  str_timestamp : Z → string;
  float_of_str : string → option spec_float;
}.

Definition str_bool (b : bool) : string := if b then "True" else "False".

(** [n] in decimal, padded with zeros on the left to [width] digits. *)
Definition zero_pad (width : nat) (n : nat) : string :=
  let s := pretty n in
  String.concat "" (replicate (width - String.length s)%nat "0"%string) +:+ s.

Section runtime.
Context {rt : PyText}.

(** The builtin [str()]. *)
Definition py_str (v : pyval) : string :=
  match v with
  | PyNone => "None"
  | PyBool b | NpBool b => str_bool b
  | PyInt z | NpInteger z => pretty z
  | PyFloat f => repr_float f
  | NpFloating f => str_floating f
  | PyStr s => s
  | Timestamp ns => str_timestamp ns
  | NaT => "NaT"
  | PyDate y m d => zero_pad 4 y +:+ "-" +:+ zero_pad 2 m +:+ "-" +:+ zero_pad 2 d
  end.

(** The builtin [float()]. *)
Definition py_float (v : pyval) : result spec_float :=
  match v with
  | PyFloat f | NpFloating f => Ok f
  | PyInt z | NpInteger z => int_to_float z
  | PyBool b | NpBool b => int_to_float (Z.b2z b)
  | PyStr s =>
      match float_of_str s with
      | Some f => Ok f
      | None => Raise ValueError
      end
  | PyNone | Timestamp _ | NaT | PyDate _ _ _ => Raise TypeError
  end.

End runtime.

(** ** The frame

    A [DataFrame] is its column labels and its rows in index order.  A row
    is a record of cells by column label; as when pandas builds a frame from
    records, a column that a record does not mention holds NaN there. *)
Record DataFrame := {
  columns : gset string;
  records : list (gmap string pyval);
}.

Definition cell (row : gmap string pyval) (col : string) : pyval :=
  default (PyFloat S754_nan) (row !! col).

(** [row[col]] on a row of [df.iterrows()]: the cell, or [KeyError] when
    the frame has no such column. *)
Definition getitem (df : DataFrame) (row : gmap string pyval) (col : string)
  : result pyval :=
  if decide (col ∈ columns df) then Ok (cell row col) else Raise (KeyError [col]).

(** [pandas.isna] on a cell: None, NaN and NaT are the missing values. *)
Definition isna (v : pyval) : bool :=
  match v with
  | PyNone | NaT => true
  | PyFloat f | NpFloating f => is_nan f
  | _ => false
  end.

(** A row [dropna(subset=...)] keeps: no cell of the subset is missing. *)
Definition notna_on (subset : list string) (row : gmap string pyval) : bool :=
  forallb (λ col, negb (isna (cell row col))) subset.

(** [df.dropna(subset=subset)]: [KeyError] with the absent labels when one
    of the subset is not a column; otherwise the rows with no missing cell
    under the subset, in order. *)
Definition dropna (df : DataFrame) (subset : list string) : result DataFrame :=
  match filter (λ col, col ∉ columns df) subset with
  | [] => Ok {| columns := columns df;
                records := filter (λ row, notna_on subset row) (records df) |}
  | missing => Raise (KeyError missing)
  end.

(** ** The GeoJSON document *)

Record Geometry := {
  geometry_type : string;
  coordinates : list spec_float;
}.

Record Feature := {
  feature_type : string;
  geometry : Geometry;
  properties : gmap string pyval;
}.

Record FeatureCollection := {
  collection_type : string;
  features : list Feature;
}.

(** ** [convert_to_geojson] *)

Section convert.
Context {rt : PyText}.

(** Lines 37-42: the loop over [properties_cols], from the dict built so far. *)
Fixpoint build_properties (df : DataFrame) (row : gmap string pyval)
    (properties_cols : list string) (properties : gmap string pyval)
  : result (gmap string pyval) :=
  match properties_cols with
  | [] => Ok properties
  | col :: rest =>
      v ← getitem df row col;
      build_properties df row rest
        (if isinstance v [pd_Timestamp; np_integer; np_floating; np_bool_]
         then <[col := PyStr (py_str v)]> properties
         else <[col := v]> properties)
  end.

(** Lines 35-52: the Feature of one row. *)
Definition row_feature (df : DataFrame) (lat_col lon_col : string)
    (properties_cols : list string) (row : gmap string pyval) : result Feature :=
  properties ← build_properties df row properties_cols ∅;
  lon ← getitem df row lon_col ≫= py_float;
  lat ← getitem df row lat_col ≫= py_float;
  Ok {| feature_type := "Feature";
        geometry := {| geometry_type := "Point"; coordinates := [lon; lat] |};
        properties := properties |}.

(** Lines 34-54: the loop over [valid_df.iterrows()], appending to [features]. *)
Fixpoint iterrows_loop (df : DataFrame) (lat_col lon_col : string)
    (properties_cols : list string) (rows : list (gmap string pyval))
    (features : list Feature) : result (list Feature) :=
  match rows with
  | [] => Ok features
  | row :: rest =>
      feature ← row_feature df lat_col lon_col properties_cols row;
      iterrows_loop df lat_col lon_col properties_cols rest (features ++ [feature])
  end.

Definition convert_to_geojson (df : DataFrame) (lat_col lon_col : string)
    (properties_cols : list string) : result FeatureCollection :=
  valid_df ← dropna df [lat_col; lon_col];
  features ← iterrows_loop valid_df lat_col lon_col properties_cols
                (records valid_df) [];
  Ok {| collection_type := "FeatureCollection"; features := features |}.

End convert.

(** ** Notions the properties are stated with *)

(** The rows the loop visits: the ones [dropna] keeps, in frame order. *)
Definition surviving (df : DataFrame) (lat_col lon_col : string)
  : list (gmap string pyval) :=
  filter (λ row, notna_on [lat_col; lon_col] row) (records df).

(** The four classes of the [isinstance] test of line 39. *)
Definition stringified (v : pyval) : bool :=
  isinstance v [pd_Timestamp; np_integer; np_floating; np_bool_].

(** What lines 39-42 store for a cell. *)
Definition normalized `{PyText} (v : pyval) : pyval :=
  if stringified v then PyStr (py_str v) else v.

(** A string, a number, a boolean or null: an object of one of the builtin
    classes JSON has a literal for. *)
Definition json_scalar (v : pyval) : bool :=
  match v with
  | PyNone | PyBool _ | PyInt _ | PyFloat _ | PyStr _ => true
  | _ => false
  end.

(** A text cell: [float()] parses it. *)
Definition is_text (v : pyval) : bool :=
  match v with PyStr _ => true | _ => false end.

(** The first label of a list that is not a column of the frame. *)
Definition first_absent (df : DataFrame) (cols : list string) : option string :=
  head (filter (λ col, col ∉ columns df) cols).

(** The binary64 nearest to the fraction [n/d], for sample data. *)
Definition binary64_ratio (n d : Z) : spec_float :=
  SFdiv 53 1024 (Z_to_binary64 n) (Z_to_binary64 d).

(** ** Sample frames *)

(** Two stations, the second without a latitude. *)
Definition station_frame : DataFrame :=
  {| columns := {["lat"; "lon"; "city"; "price"]};
     records :=
       [ {[ "lat" := PyFloat (binary64_ratio 45 10);
            "lon" := PyFloat (binary64_ratio (-741) 10);
            "city" := PyStr "Bogota"; "price" := PyInt 2500 ]};
         {[ "lat" := PyNone;
            "lon" := PyFloat (Z_to_binary64 (-74));
            "city" := PyStr "X"; "price" := PyInt 2600 ]} ] |}.

Definition station_geojson : FeatureCollection :=
  {| collection_type := "FeatureCollection";
     features :=
       [ {| feature_type := "Feature";
            geometry :=
              {| geometry_type := "Point";
                 coordinates := [binary64_ratio (-741) 10; binary64_ratio 45 10] |};
            properties := {[ "city" := PyStr "Bogota"; "price" := PyInt 2500 ]} |} ] |}.

(** Three located stations, one row per station, with numpy scalars. *)
Definition priced_frame : DataFrame :=
  {| columns := {["lat"; "lon"; "price"; "open"]};
     records :=
       [ {[ "lat" := NpFloating (binary64_ratio 45 10);
            "lon" := NpFloating (binary64_ratio (-741) 10);
            "price" := NpInteger 2500; "open" := NpBool true ]};
         {[ "lat" := PyInt 6; "lon" := PyInt (-75);
            "price" := NpInteger 2600; "open" := NpBool false ]};
         {[ "lat" := PyInt 10; "lon" := PyInt (-74);
            "price" := PyInt 2700; "open" := PyBool true ]} ] |}.

Definition priced_geojson : FeatureCollection :=
  {| collection_type := "FeatureCollection";
     features :=
       [ {| feature_type := "Feature";
            geometry :=
              {| geometry_type := "Point";
                 coordinates := [binary64_ratio (-741) 10; binary64_ratio 45 10] |};
            properties := {[ "price" := PyStr "2500"; "open" := PyStr "True" ]} |};
         {| feature_type := "Feature";
            geometry :=
              {| geometry_type := "Point";
                 coordinates := [Z_to_binary64 (-75); Z_to_binary64 6] |};
            properties := {[ "price" := PyStr "2600"; "open" := PyStr "False" ]} |};
         {| feature_type := "Feature";
            geometry :=
              {| geometry_type := "Point";
                 coordinates := [Z_to_binary64 (-74); Z_to_binary64 10] |};
            properties := {[ "price" := PyInt 2700; "open" := PyBool true ]} |} ] |}.

(** [pd.DataFrame()]: no column, no row. *)
Definition blank_frame : DataFrame :=
  {| columns := ∅; records := [] |}.

(** A frame with its columns and no row. *)
Definition empty_frame : DataFrame :=
  {| columns := {["lat"; "lon"]}; records := [] |}.

(** Stations that all lack a coordinate. *)
Definition unlocated_frame : DataFrame :=
  {| columns := {["lat"; "lon"; "city"]};
     records :=
       [ {[ "lat" := PyNone; "lon" := PyFloat (Z_to_binary64 (-74));
            "city" := PyStr "X" ]};
         {[ "lat" := PyFloat (Z_to_binary64 4); "lon" := PyFloat S754_nan;
            "city" := PyStr "Y" ]};
         {[ "city" := PyStr "Z" ]} ] |}.

(** A located station whose "fecha" cell is a [datetime.date]. *)
Definition dated_frame : DataFrame :=
  {| columns := {["lat"; "lon"; "fecha"]};
     records :=
       [ {[ "lat" := PyFloat (binary64_ratio 45 10);
            "lon" := PyFloat (binary64_ratio (-741) 10);
            "fecha" := PyDate 2025 3 14 ]} ] |}.

(** A located station whose "fecha" cell is [pd.NaT]: a date that is missing
    in a column [pd.to_datetime] converted. *)
Definition undated_frame : DataFrame :=
  {| columns := {["lat"; "lon"; "fecha"]};
     records :=
       [ {[ "lat" := PyFloat (binary64_ratio 45 10);
            "lon" := PyFloat (binary64_ratio (-741) 10);
            "fecha" := NaT ]} ] |}.

(** A good row, then a row whose latitude cell holds a Timestamp, then a
    good row. *)
Definition malformed_frame : DataFrame :=
  {| columns := {["lat"; "lon"]};
     records :=
       [ {[ "lat" := PyFloat (binary64_ratio 45 10);
            "lon" := PyFloat (binary64_ratio (-741) 10) ]};
         {[ "lat" := Timestamp 1741910400000000000;
            "lon" := PyFloat (Z_to_binary64 (-74)) ]};
         {[ "lat" := PyFloat (Z_to_binary64 6);
            "lon" := PyFloat (Z_to_binary64 (-75)) ]} ] |}.

(** A station whose latitude cell is the float [inf]. *)
Definition infinite_frame : DataFrame :=
  {| columns := {["lat"; "lon"]};
     records :=
       [ {[ "lat" := PyFloat (S754_infinity false);
            "lon" := PyFloat (binary64_ratio (-741) 10) ]} ] |}.

(** A station whose latitude cell is the text "nan". *)
Definition text_frame : DataFrame :=
  {| columns := {["lat"; "lon"]};
     records :=
       [ {[ "lat" := PyStr "nan";
            "lon" := PyFloat (binary64_ratio (-741) 10) ]} ] |}.

(** [station_frame] with other prices. *)
Definition station_frame_repriced : DataFrame :=
  {| columns := {["lat"; "lon"; "city"; "price"]};
     records :=
       [ {[ "lat" := PyFloat (binary64_ratio 45 10);
            "lon" := PyFloat (binary64_ratio (-741) 10);
            "city" := PyStr "Bogota"; "price" := PyInt 2550 ]};
         {[ "lat" := PyNone;
            "lon" := PyFloat (Z_to_binary64 (-74));
            "city" := PyStr "X" ]} ] |}.

Definition city_geojson : FeatureCollection :=
  {| collection_type := "FeatureCollection";
     features :=
       [ {| feature_type := "Feature";
            geometry :=
              {| geometry_type := "Point";
                 coordinates := [binary64_ratio (-741) 10; binary64_ratio 45 10] |};
            properties := {[ "city" := PyStr "Bogota" ]} |} ] |}.

(** ** The map section of the script (app.py, lines 108-153)

    The script keeps the rows of the latest observation date, converts them
    to GeoJSON and prepares the arguments of the scatter map.  Line 75 has
    made the date column a datetime64 column by then: each of its cells is a
    Timestamp or NaT. *)

Definition fecha_col : string := "FECHA_PRECIO".
Definition precio_col : string := "PRECIO_PROMEDIO_PUBLICADO".
Definition departamento_col : string := "DEPARTAMENTO_EDS".

Definition is_datetime (v : pyval) : bool :=
  match v with Timestamp _ | NaT => true | _ => false end.

(** The column [col] of the frame is a datetime64 column. *)
Definition datetime_column (df : DataFrame) (col : string) : Prop :=
  Forall (λ row, is_datetime (cell row col)) (records df).

(** [df[col]]: the cells of the column in row order, or [KeyError]. *)
Definition getcolumn (df : DataFrame) (col : string) : result (list pyval) :=
  if decide (col ∈ columns df)
  then Ok ((λ row, cell row col) <$> records df)
  else Raise (KeyError [col]).

(** One step of the maximum of a datetime64 Series: NaT is skipped. *)
Definition later (acc v : pyval) : pyval :=
  match v with
  | Timestamp b =>
      match acc with
      | Timestamp a => Timestamp (Z.max a b)
      | _ => Timestamp b
      end
  | _ => acc
  end.

(** [Series.max()] on a datetime64 Series: the latest Timestamp, and NaT
    when the Series holds none. *)
Definition series_max (cells : list pyval) : pyval := foldl later NaT cells.

(** [cell == scalar] between datetimes: NaT equals nothing, itself included. *)
Definition datetime_eq (v w : pyval) : bool :=
  match v, w with
  | Timestamp a, Timestamp b => bool_decide (a = b)
  | _, _ => false
  end.

(** [series == scalar], cell by cell. *)
Definition series_eq (cells : list pyval) (scalar : pyval) : list bool :=
  (λ v, datetime_eq v scalar) <$> cells.

(** [df[mask]] with a boolean mask: the rows whose entry is True, in order;
    pandas refuses a mask of another length ("Item wrong length"). *)
Definition boolean_index (df : DataFrame) (mask : list bool) : result DataFrame :=
  if decide (length mask = length (records df))
  then Ok {| columns := columns df;
             records := fst <$> filter (λ rm, rm.2 = true) (zip (records df) mask) |}
  else Raise ValueError.

(** Lines 108-109: [ultimo_mes] and [df_ultimo_mes]. *)
Definition latest_slice (df : DataFrame) (fecha : string)
  : result (pyval * DataFrame) :=
  fechas ← getcolumn df fecha;
  let ultimo_mes := series_max fechas in
  fechas' ← getcolumn df fecha;
  df_ultimo_mes ← boolean_index df (series_eq fechas' ultimo_mes);
  Ok (ultimo_mes, df_ultimo_mes).

(** Line 112. *)
Definition propiedades : list string :=
  ["MUNICIPIO_EDS"; departamento_col; precio_col].

(** Line 138: the frame the scatter map is drawn from, and line 142: the
    list given as its [size], [[10] * len(df_ultimo_mes)]. *)
Definition scatter_arguments (df_ultimo_mes : DataFrame)
  : result (DataFrame * list Z) :=
  frame ← dropna df_ultimo_mes ["LATITUD_MUNICIPIO"; "LONGITUD_MUNICIPIO"];
  Ok (frame, replicate (length (records df_ultimo_mes)) 10).

Section map_section.
Context {rt : PyText}.

(** Lines 108-113: [geojson_data], from the frame the script holds. *)
Definition geojson_data (df : DataFrame) : result FeatureCollection :=
  '(_, df_ultimo_mes) ← latest_slice df fecha_col;
  convert_to_geojson df_ultimo_mes "LATITUD_MUNICIPIO" "LONGITUD_MUNICIPIO"
    propiedades.

End map_section.

(** The rows [latest_slice] keeps: those dated [series_max] of the column. *)
Definition latest_rows (df : DataFrame) (fecha : string)
  : list (gmap string pyval) :=
  filter (λ row,
      datetime_eq (cell row fecha)
        (series_max ((λ row, cell row fecha) <$> records df)) = true)
    (records df).

(** A row carries the latest date of the frame: it is dated, and no row of
    the frame is dated after it. *)
Definition dated_latest (df : DataFrame) (fecha : string)
    (row : gmap string pyval) : bool :=
  match cell row fecha with
  | Timestamp t =>
      forallb (λ row',
          match cell row' fecha with
          | Timestamp t' => bool_decide (t' ≤ t)
          | _ => true
          end)
        (records df)
  | _ => false
  end.

(** ** The page (app.py, lines 64-201)

    What the script draws comes from plotly and what it lays out from dash:
    a figure is an opaque value here, a component is the tree the script
    builds. *)

#[local] Set Warnings "-register-all".

Inductive component (figure : Type) :=
  | Div (children : list (component figure))
  | H1 (text : string) (style : gmap string string)
  | P (text : string) (style : gmap string string)
  | Tabs (children : list (component figure))
  | Tab (label : string) (children : list (component figure))
  | Graph (fig : figure).
Arguments Div {figure} children.
Arguments H1 {figure} text style.
Arguments P {figure} text style.
Arguments Tabs {figure} children.
Arguments Tab {figure} label children.
Arguments Graph {figure} fig.

(** The figures of the [dcc.Graph] components of a tree, left to right. *)
Fixpoint graphs {figure : Type} (c : component figure) : list figure :=
  match c with
  | Div cs | Tabs cs | Tab _ cs => concat (map graphs cs)
  | Graph f => [f]
  | H1 _ _ | P _ _ => []
  end.

(** The figures lines 84-103 bind, and the two of lines 121-149. *)
Record StatFigures (figure : Type) := {
  fig_hist : figure;
  fig_box : figure;
  fig_line : figure;
  fig_trend : figure;
  fig_anual_mes : figure;
  fig_bar : figure;
  fig_top_municipios : figure;
  fig_corr : figure;
}.
Arguments fig_hist {figure} _.
Arguments fig_box {figure} _.
Arguments fig_line {figure} _.
Arguments fig_trend {figure} _.
Arguments fig_anual_mes {figure} _.
Arguments fig_bar {figure} _.
Arguments fig_top_municipios {figure} _.
Arguments fig_corr {figure} _.

Record MapFigures (figure : Type) := {
  fig_mapa : figure;
  fig_mapa_scatter : figure;
}.
Arguments fig_mapa {figure} _.
Arguments fig_mapa_scatter {figure} _.

(** Line 153. *)
Definition fig_mapa_final {figure : Type} (maps : MapFigures figure) : figure :=
  fig_mapa_scatter maps.

(** Lines 161-183: [tabs]. The figures are read only under the flag. *)
Definition build_tabs {figure : Type} (graficos_disponibles : bool)
    (stats : StatFigures figure) (maps : MapFigures figure)
  : list (component figure) :=
  let tabs := [] in
  let tabs :=
    if graficos_disponibles
    then tabs ++ [Tab "📍 Mapa de Precios" [Graph (fig_mapa_final maps)]]
    else tabs in
  if graficos_disponibles
  then tabs ++
       [ Tab "Histograma" [Graph (fig_hist stats)];
         Tab "Boxplot por Departamento" [Graph (fig_box stats)];
         Tab "Evolución por Departamento" [Graph (fig_line stats)];
         Tab "Tendencia Global" [Graph (fig_trend stats)];
         Tab "Tendencia Año/Mes" [Graph (fig_anual_mes stats)];
         Tab "Barras por Departamento" [Graph (fig_bar stats)];
         Tab "Top 10 Municipios" [Graph (fig_top_municipios stats)];
         Tab "Matriz de Correlación" [Graph (fig_corr stats)] ]
  else tabs.

(** Lines 196-201: the page shown when nothing could be loaded. *)
Definition error_page {figure : Type} : component figure :=
  Div [ H1 "Error al cargar el Dashboard"
          {[ "textAlign" := "center"; "color" := "red" ]};
        P "No se pudieron cargar los datos necesarios. Verifica que el archivo CSV está en la ruta correcta."
          {[ "textAlign" := "center" ]} ].

(** Lines 185-201: [app.layout]. *)
Definition app_layout {figure : Type} (graficos_disponibles : bool)
    (stats : StatFigures figure) (maps : MapFigures figure) : component figure :=
  let tabs := build_tabs graficos_disponibles stats maps in
  if decide (0 < length tabs)%nat
  then Div [ H1 "📈 Análisis de Precios de GNCV en Colombia"
               {[ "textAlign" := "center" ]};
             Div [ P "Análisis estadístico y geoespacial de precios de GNCV"
                     {[ "textAlign" := "center"; "fontStyle" := "italic" ]} ];
             Tabs tabs ]
  else error_page.

(** The [try] block of lines 65-155, around the code of this file.  What
    comes before line 108 (reading the CSV, parsing the dates, the
    statistical figures) and after line 113 (writing the file, the two map
    figures) is pandas, json and plotly at work: each is taken as a step
    that gives its values or raises, [None] standing for any exception.
    On the first exception the block stops and [except Exception] sets the
    flag to False (the message it prints is left out). *)
Section script.
Context {rt : PyText} {figure : Type}.
Variable load_and_plot : option (DataFrame * StatFigures figure).
Variable draw_maps :
  pyval → DataFrame → FeatureCollection → option (MapFigures figure).

Definition try_block : option (StatFigures figure * MapFigures figure) :=
  match load_and_plot with
  | None => None
  | Some (df, stats) =>
      match latest_slice df fecha_col with
      | Raise _ => None
      | Ok (ultimo_mes, df_ultimo_mes) =>
          match convert_to_geojson df_ultimo_mes
                  "LATITUD_MUNICIPIO" "LONGITUD_MUNICIPIO" propiedades with
          | Raise _ => None
          | Ok geojson =>
              match draw_maps ultimo_mes df_ultimo_mes geojson with
              | None => None
              | Some maps => Some (stats, maps)
              end
          end
      end
  end.

(** Lines 155 and 159. *)
Definition graficos_disponibles : bool := bool_decide (is_Some try_block).

(** The page the script ends with; [blank] stands for the figures that were
    never bound, which the page does not read. *)
Definition page (blank : StatFigures figure * MapFigures figure)
  : component figure :=
  let figs := default blank try_block in
  app_layout graficos_disponibles figs.1 figs.2.

End script.

(** Rows of a frame of the script: an older observation, three of the
    latest date of which the second has no coordinates, and an undated one. *)
Definition gncv_row (fecha lat lon : pyval) (departamento municipio : string)
    (precio : Z) : gmap string pyval :=
  {[ "FECHA_PRECIO" := fecha;
     "PRECIO_PROMEDIO_PUBLICADO" := PyFloat (Z_to_binary64 precio);
     "DEPARTAMENTO_EDS" := PyStr departamento;
     "MUNICIPIO_EDS" := PyStr municipio;
     "LATITUD_MUNICIPIO" := lat;
     "LONGITUD_MUNICIPIO" := lon ]}.

Definition row_barranquilla : gmap string pyval :=
  gncv_row (Timestamp 1739491200000000000)
    (PyFloat (Z_to_binary64 11)) (PyFloat (Z_to_binary64 (-75)))
    "ATLANTICO" "BARRANQUILLA" 2400.

Definition row_bogota : gmap string pyval :=
  gncv_row (Timestamp 1741910400000000000)
    (PyFloat (binary64_ratio 45 10)) (PyFloat (binary64_ratio (-741) 10))
    "BOGOTA" "BOGOTA" 2500.

Definition row_acacias : gmap string pyval :=
  gncv_row (Timestamp 1741910400000000000)
    (PyFloat S754_nan) (PyFloat S754_nan) "META" "ACACIAS" 2600.

Definition row_valledupar : gmap string pyval :=
  gncv_row NaT (PyFloat (Z_to_binary64 10)) (PyFloat (Z_to_binary64 (-73)))
    "CESAR" "VALLEDUPAR" 2700.

Definition row_medellin : gmap string pyval :=
  gncv_row (Timestamp 1741910400000000000)
    (PyFloat (Z_to_binary64 6)) (PyFloat (Z_to_binary64 (-75)))
    "ANTIOQUIA" "MEDELLIN" 2550.

(** [row_medellin] with a Timestamp in its latitude cell. *)
Definition row_medellin_malformed : gmap string pyval :=
  gncv_row (Timestamp 1741910400000000000)
    (Timestamp 1741910400000000000) (PyFloat (Z_to_binary64 (-75)))
    "ANTIOQUIA" "MEDELLIN" 2550.

Definition gncv_columns : gset string :=
  {["FECHA_PRECIO"; "PRECIO_PROMEDIO_PUBLICADO"; "DEPARTAMENTO_EDS";
    "MUNICIPIO_EDS"; "LATITUD_MUNICIPIO"; "LONGITUD_MUNICIPIO"]}.

Definition gncv_frame : DataFrame :=
  {| columns := gncv_columns;
     records := [row_barranquilla; row_bogota; row_acacias; row_valledupar;
                 row_medellin] |}.

Definition gncv_latest : DataFrame :=
  {| columns := gncv_columns;
     records := [row_bogota; row_acacias; row_medellin] |}.

Definition gncv_located : DataFrame :=
  {| columns := gncv_columns; records := [row_bogota; row_medellin] |}.

Definition gncv_geojson : FeatureCollection :=
  {| collection_type := "FeatureCollection";
     features :=
       [ {| feature_type := "Feature";
            geometry :=
              {| geometry_type := "Point";
                 coordinates := [binary64_ratio (-741) 10; binary64_ratio 45 10] |};
            properties :=
              {[ "MUNICIPIO_EDS" := PyStr "BOGOTA";
                 "DEPARTAMENTO_EDS" := PyStr "BOGOTA";
                 "PRECIO_PROMEDIO_PUBLICADO" := PyFloat (Z_to_binary64 2500) ]} |};
         {| feature_type := "Feature";
            geometry :=
              {| geometry_type := "Point";
                 coordinates := [Z_to_binary64 (-75); Z_to_binary64 6] |};
            properties :=
              {[ "MUNICIPIO_EDS" := PyStr "MEDELLIN";
                 "DEPARTAMENTO_EDS" := PyStr "ANTIOQUIA";
                 "PRECIO_PROMEDIO_PUBLICADO" := PyFloat (Z_to_binary64 2550) ]} |} ] |}.

Definition gncv_frame_malformed : DataFrame :=
  {| columns := gncv_columns;
     records := [row_barranquilla; row_bogota; row_acacias; row_valledupar;
                 row_medellin_malformed] |}.

(** ** The result monad *)

Lemma bind_Ok {A B} (r : result A) (k : A → result B) (b : B) :
  r ≫= k = Ok b ↔ ∃ a, r = Ok a ∧ k a = Ok b.
Proof.
  destruct r as [a|e]; simpl.
  - split; [eauto | by intros (? & [= <-] & ?)].
  - split; [done | by intros (? & ? & ?)].
Qed.

Lemma bind_Ok_l {A B} (a : A) (k : A → result B) : Ok a ≫= k = k a.
Proof. done. Qed.

Lemma bind_Raise_l {A B} (k : A → result B) (e : exn) : Raise e ≫= k = Raise e.
Proof. done. Qed.

Lemma result_cases {A} (r : result A) : (∃ a, r = Ok a) ∨ (∃ e, r = Raise e).
Proof. destruct r; eauto. Qed.

(** ** The primitives *)

Lemma getitem_Ok df row col v :
  getitem df row col = Ok v ↔ col ∈ columns df ∧ v = cell row col.
Proof.
  unfold getitem. case_decide; split.
  - by intros [= <-].
  - by intros [_ ->].
  - done.
  - by intros [? _].
Qed.

Lemma getitem_absent df row col :
  col ∉ columns df → getitem df row col = Raise (KeyError [col]).
Proof. intros. unfold getitem. by case_decide. Qed.

Lemma getitem_present df row col :
  col ∈ columns df → getitem df row col = Ok (cell row col).
Proof. intros. unfold getitem. by case_decide. Qed.

Lemma getitem_same_columns df df' row col :
  columns df = columns df' → getitem df row col = getitem df' row col.
Proof. unfold getitem. by intros ->. Qed.

Lemma dropna_present df lat_col lon_col :
  lat_col ∈ columns df → lon_col ∈ columns df →
  dropna df [lat_col; lon_col]
  = Ok {| columns := columns df; records := surviving df lat_col lon_col |}.
Proof.
  intros Hlat Hlon. unfold dropna.
  rewrite filter_cons_False, filter_cons_False by auto. done.
Qed.

Lemma dropna_absent df lat_col lon_col :
  lat_col ∉ columns df ∨ lon_col ∉ columns df →
  filter (λ col, col ∉ columns df) [lat_col; lon_col] ≠ [] ∧
  dropna df [lat_col; lon_col]
  = Raise (KeyError (filter (λ col, col ∉ columns df) [lat_col; lon_col])).
Proof.
  intros H. unfold dropna.
  destruct (filter _ _) as [|c cs] eqn:Hf; [|done].
  exfalso. destruct H as [H|H].
  - eapply filter_nil_not_elem_of; [exact Hf | exact H | set_solver].
  - eapply filter_nil_not_elem_of; [exact Hf | exact H | set_solver].
Qed.

Lemma dropna_Ok df lat_col lon_col valid_df :
  dropna df [lat_col; lon_col] = Ok valid_df ↔
  lat_col ∈ columns df ∧ lon_col ∈ columns df ∧
  valid_df = {| columns := columns df; records := surviving df lat_col lon_col |}.
Proof.
  split.
  - intros H.
    destruct (decide (lat_col ∈ columns df)) as [Hlat|Hlat];
      [destruct (decide (lon_col ∈ columns df)) as [Hlon|Hlon]|].
    + rewrite dropna_present in H by done. by injection H as <-.
    + destruct (dropna_absent df lat_col lon_col) as [_ E]; [by right|congruence].
    + destruct (dropna_absent df lat_col lon_col) as [_ E]; [by left|congruence].
  - intros (? & ? & ->). by apply dropna_present.
Qed.

Lemma notna_on_pair lat_col lon_col row :
  notna_on [lat_col; lon_col] row ↔
  isna (cell row lat_col) = false ∧ isna (cell row lon_col) = false.
Proof.
  unfold notna_on. simpl.
  destruct (isna (cell row lat_col)), (isna (cell row lon_col)); simpl;
    split; (done || by intros []).
Qed.

(** ** The loops of the converter *)

Section loops.
Context {rt : PyText}.

Lemma build_properties_cons df row col rest acc :
  build_properties df row (col :: rest) acc =
  v ← getitem df row col;
  build_properties df row rest
    (if stringified v then <[col := PyStr (py_str v)]> acc else <[col := v]> acc).
Proof. done. Qed.

Lemma build_properties_spec df row cols acc :
  build_properties df row cols acc =
  match first_absent df cols with
  | Some col => Raise (KeyError [col])
  | None => Ok (foldl (λ m col, <[col := normalized (cell row col)]> m) acc cols)
  end.
Proof.
  revert acc. induction cols as [|col cols IH]; intros acc; [done|].
  rewrite build_properties_cons. unfold first_absent in *. rewrite filter_cons.
  destruct (decide (col ∉ columns df)) as [Habs|Hpres].
  - by rewrite getitem_absent.
  - rewrite getitem_present by (apply dec_stable, Hpres).
    rewrite bind_Ok_l, IH. cbn [foldl]. unfold normalized.
    by destruct (stringified _).
Qed.

Lemma first_absent_None df cols :
  first_absent df cols = None ↔ Forall (λ col, col ∈ columns df) cols.
Proof.
  unfold first_absent. induction cols as [|col cols IH]; [by split|].
  rewrite filter_cons, Forall_cons.
  destruct (decide (col ∉ columns df)) as [Habs|Hpres]; simpl.
  - split; [done | by intros [? _]].
  - rewrite IH. split; [|by intros [_ ?]]. split; [apply dec_stable, Hpres|done].
Qed.

Lemma first_absent_Some df cols col :
  first_absent df cols = Some col → col ∈ cols ∧ col ∉ columns df.
Proof.
  unfold first_absent. intros H%head_Some_elem_of.
  apply list_elem_of_filter in H. tauto.
Qed.

Lemma first_absent_exists df cols col :
  col ∈ cols → col ∉ columns df → is_Some (first_absent df cols).
Proof.
  intros Hin Habs. destruct (first_absent df cols) eqn:E; [by eexists|].
  apply first_absent_None in E. rewrite Forall_forall in E. naive_solver.
Qed.

(** The dict the inner loop leaves: the last assignment to a key wins, and
    every assignment to [name] stores the same value. *)
Lemma foldl_insert_lookup (row acc : gmap string pyval) cols name :
  foldl (λ m col, <[col := normalized (cell row col)]> m) acc cols !! name
  = if decide (name ∈ cols) then Some (normalized (cell row name)) else acc !! name.
Proof.
  revert acc. induction cols as [|col cols IH]; intros acc; cbn [foldl].
  - by rewrite decide_False by apply not_elem_of_nil.
  - rewrite IH. destruct (decide (name ∈ cols)) as [Hin|Hnin].
    + by rewrite decide_True by (apply elem_of_cons; by right).
    + destruct (decide (name = col)) as [->|Hne].
      * rewrite decide_True by (apply elem_of_cons; by left).
        by rewrite lookup_insert_eq.
      * rewrite decide_False by (by intros [?|?]%elem_of_cons).
        by rewrite lookup_insert_ne.
Qed.

Lemma row_feature_same_columns df df' lat_col lon_col cols row :
  columns df = columns df' →
  row_feature df lat_col lon_col cols row = row_feature df' lat_col lon_col cols row.
Proof.
  intros Hc. unfold row_feature.
  rewrite !build_properties_spec, !(getitem_same_columns df df' _ _ Hc).
  unfold first_absent. by rewrite Hc.
Qed.

Lemma row_feature_Ok df lat_col lon_col cols row feature :
  row_feature df lat_col lon_col cols row = Ok feature ↔
  ∃ lon lat,
    Forall (λ col, col ∈ columns df) cols ∧
    lon_col ∈ columns df ∧ py_float (cell row lon_col) = Ok lon ∧
    lat_col ∈ columns df ∧ py_float (cell row lat_col) = Ok lat ∧
    feature =
      {| feature_type := "Feature";
         geometry := {| geometry_type := "Point"; coordinates := [lon; lat] |};
         properties :=
           foldl (λ m col, <[col := normalized (cell row col)]> m) ∅ cols |}.
Proof.
  unfold row_feature. rewrite build_properties_spec. split.
  - destruct (first_absent df cols) eqn:Hfa; [done|]. simpl.
    apply first_absent_None in Hfa.
    intros (lon & (v1 & (Hlon & ->)%getitem_Ok & Hf1)%bind_Ok & H)%bind_Ok.
    apply bind_Ok in H as (lat & (v2 & (Hlat & ->)%getitem_Ok & Hf2)%bind_Ok & H).
    injection H as <-. by exists lon, lat.
  - intros (lon & lat & Hcols%first_absent_None & Hlon & Hf1 & Hlat & Hf2 & ->).
    rewrite Hcols. simpl. rewrite !getitem_present by done. simpl.
    by rewrite Hf1, Hf2.
Qed.

(** The outer loop appends, in order, the Feature of each row it visits. *)
Lemma iterrows_loop_Ok df lat_col lon_col cols rows acc out :
  iterrows_loop df lat_col lon_col cols rows acc = Ok out ↔
  ∃ fs, Forall2 (λ row f, row_feature df lat_col lon_col cols row = Ok f) rows fs
        ∧ out = acc ++ fs.
Proof.
  revert acc. induction rows as [|row rows IH]; intros acc; simpl.
  - split.
    + intros [= <-]. exists []. by rewrite app_nil_r.
    + intros (fs & ->%Forall2_nil_inv_l & ->). by rewrite app_nil_r.
  - rewrite bind_Ok. split.
    + intros (f & Hf & (fs & Hfs & ->)%IH).
      exists (f :: fs). split; [by constructor|]. by rewrite <- app_assoc.
    + intros (fs & Hfs & ->).
      apply Forall2_cons_inv_l in Hfs as (f & fs' & Hf & Hfs & ->).
      exists f. split; [done|]. apply IH. exists fs'.
      split; [done|]. by rewrite <- app_assoc.
Qed.

Lemma iterrows_loop_Raise df lat_col lon_col cols row rows acc e :
  row_feature df lat_col lon_col cols row = Raise e →
  iterrows_loop df lat_col lon_col cols (row :: rows) acc = Raise e.
Proof. intros H. simpl. by rewrite H. Qed.

(** When the converter returns, and what. *)
Lemma convert_to_geojson_Ok df lat_col lon_col cols fc :
  convert_to_geojson df lat_col lon_col cols = Ok fc ↔
  lat_col ∈ columns df ∧ lon_col ∈ columns df ∧
  collection_type fc = "FeatureCollection" ∧
  Forall2 (λ row f, row_feature df lat_col lon_col cols row = Ok f)
    (surviving df lat_col lon_col) (features fc).
Proof.
  unfold convert_to_geojson. rewrite bind_Ok. split.
  - intros (valid_df & (Hlat & Hlon & ->)%dropna_Ok & H).
    apply bind_Ok in H as (fs & (fs' & Hfs & ->)%iterrows_loop_Ok & [= <-]).
    simpl in *. repeat split; try done.
    eapply Forall2_impl; [exact Hfs|]. intros row f <-.
    by apply row_feature_same_columns.
  - intros (Hlat & Hlon & Htype & Hfs).
    eexists. split; [by apply dropna_present|]. simpl.
    apply bind_Ok. exists (features fc). split.
    + apply iterrows_loop_Ok. exists (features fc). split; [|done].
      eapply Forall2_impl; [exact Hfs|]. intros row f <-.
      by apply row_feature_same_columns.
    + destruct fc as [t fs]. simpl in *. by subst.
Qed.

End loops.

(** ** Lists: filters and order *)

Lemma length_filter_eq {A} (P : A → Prop) `{!∀ x, Decision (P x)} (l : list A) :
  length (filter P l) = length l ↔ Forall P l.
Proof.
  induction l as [|x l IH]; [by split|].
  rewrite filter_cons, Forall_cons. destruct (decide (P x)) as [HP|HP]; simpl.
  - rewrite <- IH. split; [intros [= ->]; by split | by intros [_ ->]].
  - pose proof (length_filter P l). split; [lia | by intros [? _]].
Qed.

Lemma filter_idemp {A} (P : A → Prop) `{!∀ x, Decision (P x)} (l : list A) :
  filter P (filter P l) = filter P l.
Proof.
  induction l as [|x l IH]; [done|].
  rewrite filter_cons. destruct (decide (P x)) as [HP|HP]; [|done].
  by rewrite filter_cons_True, IH.
Qed.

(** Two positions of a sublist come from two positions of the list, in the
    same order. *)
Lemma sublist_lookup_ordered {A} (k l : list A) i j x y :
  sublist k l → (i < j)%nat → k !! i = Some x → k !! j = Some y →
  ∃ p q, (p < q)%nat ∧ l !! p = Some x ∧ l !! q = Some y.
Proof.
  intros Hsub. revert i j. induction Hsub as [|a k l Hsub IH|a k l Hsub IH];
    intros i j Hij Hi Hj.
  - done.
  - destruct i as [|i], j as [|j]; try lia; simpl in *.
    + injection Hi as ->.
      apply list_elem_of_lookup_2 in Hj.
      apply (sublist_subseteq _ _ Hsub) in Hj.
      apply list_elem_of_lookup_1 in Hj as [q Hq].
      exists 0%nat, (S q). split; [lia|done].
    + destruct (IH i j) as (p & q & ? & ? & ?); [lia|done..|].
      exists (S p), (S q). split; [lia|done].
  - destruct (IH i j) as (p & q & ? & ? & ?); [done..|].
    exists (S p), (S q). split; [lia|done].
Qed.

(** ** Properties of [convert_to_geojson] *)

(** *** Dropped rows *)

Section dropped_rows.
Context {rt : PyText}.

Lemma surviving_sublist df lat_col lon_col :
  sublist (surviving df lat_col lon_col) (records df).
Proof. apply sublist_filter. Qed.

Lemma surviving_idemp df lat_col lon_col :
  surviving {| columns := columns df; records := surviving df lat_col lon_col |}
    lat_col lon_col
  = surviving df lat_col lon_col.
Proof. unfold surviving at 1. simpl. apply filter_idemp. Qed.

(** The rows [dropna] removes play no part in the call, error or not. *)
Lemma convert_to_geojson_on_surviving df lat_col lon_col cols :
  convert_to_geojson df lat_col lon_col cols
  = convert_to_geojson
      {| columns := columns df; records := surviving df lat_col lon_col |}
      lat_col lon_col cols.
Proof.
  unfold convert_to_geojson.
  destruct (decide (lat_col ∈ columns df ∧ lon_col ∈ columns df)) as [[Hlat Hlon]|Hn].
  - rewrite !dropna_present by done. simpl. by rewrite surviving_idemp.
  - apply not_and_l in Hn.
    destruct (dropna_absent df lat_col lon_col Hn) as [_ ->].
    by destruct (dropna_absent
      {| columns := columns df; records := surviving df lat_col lon_col |}
      lat_col lon_col Hn) as [_ ->].
Qed.

End dropped_rows.

(** *** Coordinates *)

Section coordinates.
Context {rt : PyText}.

(** C1. Whenever the converter returns, the Feature of each surviving row,
    taken in order, has a geometry of type Point whose coordinates list is
    [float(row[lon_col]), float(row[lat_col])]: longitude first, latitude
    second. *)
Theorem coordinates_are_lon_then_lat df lat_col lon_col cols fc :
  convert_to_geojson df lat_col lon_col cols = Ok fc →
  Forall2 (λ row feature,
      geometry_type (geometry feature) = "Point" ∧
      ∃ lon lat,
        py_float (cell row lon_col) = Ok lon ∧
        py_float (cell row lat_col) = Ok lat ∧
        coordinates (geometry feature) = [lon; lat])
    (surviving df lat_col lon_col) (features fc).
Proof.
  intros (_ & _ & _ & Hfs)%convert_to_geojson_Ok.
  eapply Forall2_impl; [exact Hfs|]. simpl.
  intros row f (lon & lat & _ & _ & Hlon & _ & Hlat & ->)%row_feature_Ok.
  split; [done|]. by exists lon, lat.
Qed.

End coordinates.

(** C1 on the two stations of [station_frame]: the call returns, and the one
    Feature is at [-74.1, 4.5]. *)
Lemma coordinates_are_lon_then_lat_witness :
  (∀ rt : PyText,
     convert_to_geojson station_frame "lat" "lon" ["city"; "price"]
     = Ok station_geojson) ∧
  (∀ rt : PyText,
     Forall2 (λ row feature,
         geometry_type (geometry feature) = "Point" ∧
         ∃ lon lat,
           py_float (cell row "lon") = Ok lon ∧
           py_float (cell row "lat") = Ok lat ∧
           coordinates (geometry feature) = [lon; lat])
       (surviving station_frame "lat" "lon") (features station_geojson)).
Proof.
  split; intros rt; [vm_compute; reflexivity|].
  apply (coordinates_are_lon_then_lat station_frame "lat" "lon" ["city"; "price"]).
  vm_compute; reflexivity.
Defined.

(** *** The missing-coordinate filter *)

Section filter.
Context {rt : PyText}.

(** C2. Whenever the converter returns, it returns at most one Feature per
    input row, and exactly one per row if and only if no row has a missing
    latitude or longitude cell; the rows with a missing coordinate are
    dropped without a trace: the call does what it does on the frame without
    them. *)
Theorem feature_count_and_dropped_rows df lat_col lon_col cols fc :
  convert_to_geojson df lat_col lon_col cols = Ok fc →
  (length (features fc) ≤ length (records df))%nat ∧
  (length (features fc) = length (records df) ↔
   Forall (λ row, isna (cell row lat_col) = false ∧ isna (cell row lon_col) = false)
     (records df)) ∧
  length (features fc) = length (surviving df lat_col lon_col) ∧
  convert_to_geojson
    {| columns := columns df; records := surviving df lat_col lon_col |}
    lat_col lon_col cols = Ok fc.
Proof.
  intros Hfc. pose proof Hfc as (_ & _ & _ & Hfs)%convert_to_geojson_Ok.
  apply Forall2_length in Hfs. rewrite <- Hfs.
  split; [apply length_filter|]. split; [|split; [done|]].
  - unfold surviving. rewrite length_filter_eq.
    apply Forall_proper; [|done]. intros row. apply notna_on_pair.
  - by rewrite <- convert_to_geojson_on_surviving.
Qed.

End filter.

(** C2 on [station_frame]: two rows, one Feature. *)
Lemma feature_count_and_dropped_rows_witness :
  (∀ rt : PyText,
     convert_to_geojson station_frame "lat" "lon" ["city"; "price"]
     = Ok station_geojson) ∧
  (∀ rt : PyText,
     (length (features station_geojson) ≤ length (records station_frame))%nat ∧
     (length (features station_geojson) = length (records station_frame) ↔
      Forall (λ row, isna (cell row "lat") = false ∧ isna (cell row "lon") = false)
        (records station_frame)) ∧
     length (features station_geojson) = length (surviving station_frame "lat" "lon") ∧
     convert_to_geojson
       {| columns := columns station_frame;
          records := surviving station_frame "lat" "lon" |}
       "lat" "lon" ["city"; "price"] = Ok station_geojson).
Proof.
  split; intros rt; [vm_compute; reflexivity|].
  apply (feature_count_and_dropped_rows station_frame "lat" "lon" ["city"; "price"]).
  vm_compute; reflexivity.
Defined.

(** *** Order *)

Section order.
Context {rt : PyText}.

(** C7. Whenever the converter returns, its features are the Features of the
    surviving rows in frame order: any two of them, one before the other,
    are the Features of two surviving rows of the input, the first before
    the second. *)
Theorem features_keep_row_order df lat_col lon_col cols fc :
  convert_to_geojson df lat_col lon_col cols = Ok fc →
  Forall2 (λ row feature, row_feature df lat_col lon_col cols row = Ok feature)
    (surviving df lat_col lon_col) (features fc) ∧
  ∀ i j fi fj,
    (i < j)%nat → features fc !! i = Some fi → features fc !! j = Some fj →
    ∃ p q rp rq,
      (p < q)%nat ∧ records df !! p = Some rp ∧ records df !! q = Some rq ∧
      notna_on [lat_col; lon_col] rp ∧ notna_on [lat_col; lon_col] rq ∧
      row_feature df lat_col lon_col cols rp = Ok fi ∧
      row_feature df lat_col lon_col cols rq = Ok fj.
Proof.
  intros (_ & _ & _ & Hfs)%convert_to_geojson_Ok. split; [done|].
  intros i j fi fj Hij Hi Hj.
  destruct (Forall2_lookup_r _ _ _ _ _ Hfs Hi) as (rp & Hrp & Hfi).
  destruct (Forall2_lookup_r _ _ _ _ _ Hfs Hj) as (rq & Hrq & Hfj).
  destruct (sublist_lookup_ordered _ _ i j rp rq
              (surviving_sublist df lat_col lon_col) Hij Hrp Hrq)
    as (p & q & Hpq & Hp & Hq).
  exists p, q, rp, rq. repeat split; try done.
  - apply list_elem_of_lookup_2 in Hrp.
    by apply list_elem_of_filter in Hrp as [? _].
  - apply list_elem_of_lookup_2 in Hrq.
    by apply list_elem_of_filter in Hrq as [? _].
Qed.


End order.

(** C7 on the three rows of [priced_frame]. *)
Lemma features_keep_row_order_witness :
  (∀ rt : PyText,
     convert_to_geojson priced_frame "lat" "lon" ["price"; "open"]
     = Ok priced_geojson) ∧
  (∀ rt : PyText,
     Forall2 (λ row feature,
         row_feature priced_frame "lat" "lon" ["price"; "open"] row = Ok feature)
       (surviving priced_frame "lat" "lon") (features priced_geojson) ∧
     ∀ i j fi fj,
       (i < j)%nat →
       features priced_geojson !! i = Some fi →
       features priced_geojson !! j = Some fj →
       ∃ p q rp rq,
         (p < q)%nat ∧
         records priced_frame !! p = Some rp ∧ records priced_frame !! q = Some rq ∧
         notna_on ["lat"; "lon"] rp ∧ notna_on ["lat"; "lon"] rq ∧
         row_feature priced_frame "lat" "lon" ["price"; "open"] rp = Ok fi ∧
         row_feature priced_frame "lat" "lon" ["price"; "open"] rq = Ok fj).
Proof.
  split; intros rt; [vm_compute; reflexivity|].
  apply (features_keep_row_order priced_frame "lat" "lon" ["price"; "open"]).
  vm_compute; reflexivity.
Defined.

(** *** Property values *)

Section property_values.
Context {rt : PyText}.

Lemma normalized_json_scalar v :
  stringified v = true ∨ json_scalar v = true → json_scalar (normalized v) = true.
Proof. unfold normalized. destruct (stringified v); [done | by intros [?|?]]. Qed.

Lemma stringified_not_json_scalar v : stringified v = true → json_scalar v = false.
Proof. by destruct v. Qed.

(** The properties dict of a Feature: the keys are the names asked for, and
    each holds the normalised cell of the row. *)
Lemma row_feature_properties df lat_col lon_col cols row feature name :
  row_feature df lat_col lon_col cols row = Ok feature →
  properties feature !! name
  = if decide (name ∈ cols) then Some (normalized (cell row name)) else None.
Proof.
  intros (lon & lat & _ & _ & _ & _ & _ & ->)%row_feature_Ok. simpl.
  rewrite foldl_insert_lookup. by case_decide.
Qed.

(** What lines 39-42 store, whenever the converter returns: under each name
    of [properties_cols], [str(value)] when the row's value is a pandas
    Timestamp or a numpy integer, floating or bool scalar, and the row's
    value itself otherwise, whatever it is. *)
Lemma property_values_are_normalized df lat_col lon_col cols fc :
  convert_to_geojson df lat_col lon_col cols = Ok fc →
  Forall2 (λ row feature, ∀ name, name ∈ cols →
      (stringified (cell row name) = true →
       properties feature !! name = Some (PyStr (py_str (cell row name)))) ∧
      (stringified (cell row name) = false →
       properties feature !! name = Some (cell row name)))
    (surviving df lat_col lon_col) (features fc).
Proof.
  intros (_ & _ & _ & Hfs)%convert_to_geojson_Ok.
  eapply Forall2_impl; [exact Hfs|]. simpl.
  intros row f Hf name Hname.
  rewrite (row_feature_properties _ _ _ _ _ _ name Hf), decide_True by done.
  unfold normalized. by split; intros ->.
Qed.

End property_values.

(** C3: the converter at an input where what it stores is not a string, a
    number, a boolean or null. A [datetime.date] cell is an instance of none
    of the four classes of the test of line 39, so line 42 stores the date
    object itself in the Feature. *)
Lemma date_property_is_stored_as_a_date :
  ∃ feature,
    (∀ rt : PyText,
       convert_to_geojson dated_frame "lat" "lon" ["fecha"]
       = Ok {| collection_type := "FeatureCollection"; features := [feature] |}) ∧
    properties feature !! "fecha" = Some (PyDate 2025 3 14) ∧
    isinstance (PyDate 2025 3 14) [pd_Timestamp; np_integer; np_floating; np_bool_]
    = false ∧
    json_scalar (PyDate 2025 3 14) = false.
Proof.
  eexists. split; [intros rt; vm_compute; reflexivity|].
  split; [vm_compute; reflexivity | split; reflexivity].
Qed.

(** C6: the converter at an input where a class outside the four of its
    test reaches the output. A missing date, [pd.NaT], is not an instance of
    [pd.Timestamp]: the converter stores the NaT object itself, not a
    string, and [json.dump] has no encoding for it. *)
Lemma nat_property_is_stored_as_nat :
  ∃ feature,
    (∀ rt : PyText,
       convert_to_geojson undated_frame "lat" "lon" ["fecha"]
       = Ok {| collection_type := "FeatureCollection"; features := [feature] |}) ∧
    properties feature !! "fecha" = Some NaT ∧
    isinstance NaT [pd_Timestamp; np_integer; np_floating; np_bool_] = false ∧
    json_scalar NaT = false.
Proof.
  eexists. split; [intros rt; vm_compute; reflexivity|].
  split; [vm_compute; reflexivity | split; reflexivity].
Qed.

(** *** Errors *)

Section errors.
Context {rt : PyText}.

Lemma row_feature_absent_property df lat_col lon_col cols row col :
  first_absent df cols = Some col →
  row_feature df lat_col lon_col cols row = Raise (KeyError [col]).
Proof. intros H. unfold row_feature. by rewrite build_properties_spec, H. Qed.

(** An error of the loop is the error of one of the rows it visits. *)
Lemma iterrows_loop_Raise_inv df lat_col lon_col cols rows acc e :
  iterrows_loop df lat_col lon_col cols rows acc = Raise e →
  ∃ row, row ∈ rows ∧ row_feature df lat_col lon_col cols row = Raise e.
Proof.
  revert acc. induction rows as [|row rows IH]; intros acc; simpl; [done|].
  destruct (row_feature df lat_col lon_col cols row) as [f|e'] eqn:Hrow; simpl.
  - intros (row' & ? & ?)%IH. exists row'. split; [by apply elem_of_cons; right|done].
  - intros [= ->]. exists row. split; [by apply elem_of_cons; left|done].
Qed.

(** With every column in place, a row fails on one of its two [float()]
    calls, the longitude first. *)
Lemma row_feature_Raise_float df lat_col lon_col cols row e :
  lat_col ∈ columns df → lon_col ∈ columns df →
  Forall (λ col, col ∈ columns df) cols →
  row_feature df lat_col lon_col cols row = Raise e →
  py_float (cell row lon_col) = Raise e ∨
  (is_Some (match py_float (cell row lon_col) with Ok f => Some f | _ => None end) ∧
   py_float (cell row lat_col) = Raise e).
Proof.
  intros Hlat Hlon Hcols%first_absent_None. unfold row_feature.
  rewrite build_properties_spec, Hcols, !getitem_present by done.
  rewrite !bind_Ok_l.
  destruct (py_float (cell row lon_col)) as [lon|e1];
    [|rewrite bind_Raise_l; intros [= ->]; by left].
  rewrite bind_Ok_l.
  destruct (py_float (cell row lat_col)) as [lat|e2]; [done|].
  rewrite bind_Raise_l. intros [= ->]. right. split; [by eexists | done].
Qed.

(** C4, amended. When [lat_col] or [lon_col] is not a column of the frame,
    the converter raises [KeyError] with the absent ones of the two, whatever
    the rows are: [dropna] checks its subset before the loop starts. When
    both are columns, a name of [properties_cols] is not, and at least one
    row survives the filter, it raises [KeyError] with the first absent name
    on reaching the first surviving row, before a Feature is built. *)
Theorem absent_column_raises_KeyError df lat_col lon_col cols :
  lat_col ∉ columns df ∨ lon_col ∉ columns df ∨
    (surviving df lat_col lon_col ≠ [] ∧ ∃ col, col ∈ cols ∧ col ∉ columns df) →
  ∃ missing,
    convert_to_geojson df lat_col lon_col cols = Raise (KeyError missing) ∧
    missing ≠ [] ∧
    Forall (λ col, col ∉ columns df) missing ∧
    if decide (lat_col ∈ columns df ∧ lon_col ∈ columns df)
    then ∃ col row rest,
           first_absent df cols = Some col ∧ missing = [col] ∧
           surviving df lat_col lon_col = row :: rest ∧
           row_feature df lat_col lon_col cols row = Raise (KeyError [col])
    else missing = filter (λ col, col ∉ columns df) [lat_col; lon_col].
Proof.
  intros H. unfold convert_to_geojson.
  destruct (decide (lat_col ∈ columns df ∧ lon_col ∈ columns df)) as [[Hlat Hlon]|Hn].
  - destruct H as [?|[?|(Hrows & col & Hin & Habs)]]; [done..|].
    destruct (first_absent_exists df cols col Hin Habs) as [c Hc].
    destruct (surviving df lat_col lon_col) as [|row rest] eqn:Hs; [done|].
    exists [c]. rewrite dropna_present by done. rewrite bind_Ok_l. simpl records.
    rewrite Hs.
    erewrite iterrows_loop_Raise; last first.
    { erewrite row_feature_same_columns; [by apply row_feature_absent_property|done]. }
    split; [done|]. split; [done|].
    split; [constructor; [by apply first_absent_Some in Hc as [_ ?] | constructor]|].
    exists c, row, rest. repeat split; try done.
    by apply row_feature_absent_property.
  - apply not_and_l in Hn.
    destruct (dropna_absent df lat_col lon_col Hn) as [Hne ->].
    eexists. split; [done|]. split; [done|]. split; [|done].
    apply Forall_forall. by intros c [? _]%list_elem_of_filter.
Qed.

End errors.

(** C4, amended, on [station_frame] asked for a column it does not have. *)
Lemma absent_column_raises_KeyError_witness :
  ("lat" ∉ columns station_frame ∨ "lon" ∉ columns station_frame ∨
     (surviving station_frame "lat" "lon" ≠ [] ∧
      ∃ col, col ∈ ["city"; "ghost"] ∧ col ∉ columns station_frame)) ∧
  (∀ rt : PyText,
     ∃ missing,
       convert_to_geojson station_frame "lat" "lon" ["city"; "ghost"]
       = Raise (KeyError missing) ∧
       missing ≠ [] ∧
       Forall (λ col, col ∉ columns station_frame) missing ∧
       if decide ("lat" ∈ columns station_frame ∧ "lon" ∈ columns station_frame)
       then ∃ col row rest,
              first_absent station_frame ["city"; "ghost"] = Some col ∧
              missing = [col] ∧
              surviving station_frame "lat" "lon" = row :: rest ∧
              row_feature station_frame "lat" "lon" ["city"; "ghost"] row
              = Raise (KeyError [col])
       else missing = filter (λ col, col ∉ columns station_frame) ["lat"; "lon"]).
Proof.
  assert ("lat" ∉ columns station_frame ∨ "lon" ∉ columns station_frame ∨
     (surviving station_frame "lat" "lon" ≠ [] ∧
      ∃ col, col ∈ ["city"; "ghost"] ∧ col ∉ columns station_frame)) as H.
  { right; right. split; [by vm_compute|]. exists "ghost".
    split; [by apply elem_of_cons; right; apply elem_of_cons; left|].
    by vm_compute. }
  split; [exact H|]. intros rt.
  exact (absent_column_raises_KeyError station_frame "lat" "lon" ["city"; "ghost"] H).
Defined.

(** C4, as stated, fails: on a frame with no row, a name of
    [properties_cols] that is not a column raises nothing. *)
Lemma absent_property_of_empty_frame_is_not_an_error :
  ("ghost" ∉ columns empty_frame) ∧
  (∀ rt : PyText,
     convert_to_geojson empty_frame "lat" "lon" ["ghost"]
     = Ok {| collection_type := "FeatureCollection"; features := [] |}).
Proof. split; [by vm_compute | intros rt; vm_compute; reflexivity]. Qed.

(** *** Malformed coordinates *)

Section malformed.
Context {rt : PyText}.

(** C5, amended. A row that survives the filter and whose latitude or
    longitude cell [float()] does not convert makes the converter raise: no
    FeatureCollection is returned, and no row is dropped for it. When every
    column asked for is in the frame, the error raised is the one [float()]
    raised on a coordinate cell of a surviving row. *)
Theorem malformed_coordinate_raises df lat_col lon_col cols row e0 :
  row ∈ records df →
  isna (cell row lat_col) = false → isna (cell row lon_col) = false →
  py_float (cell row lat_col) = Raise e0 ∨ py_float (cell row lon_col) = Raise e0 →
  ∃ e,
    convert_to_geojson df lat_col lon_col cols = Raise e ∧
    (lat_col ∈ columns df → lon_col ∈ columns df →
     Forall (λ col, col ∈ columns df) cols →
     ∃ row', row' ∈ surviving df lat_col lon_col ∧
             (py_float (cell row' lon_col) = Raise e ∨
              py_float (cell row' lat_col) = Raise e)).
Proof.
  intros Hrow Hlat Hlon Hbad.
  destruct (result_cases (convert_to_geojson df lat_col lon_col cols))
    as [[fc Hfc]|[e He]].
  - exfalso. apply convert_to_geojson_Ok in Hfc as (_ & _ & _ & Hfs).
    assert (row ∈ surviving df lat_col lon_col) as Hin.
    { apply list_elem_of_filter. split; [by apply notna_on_pair|done]. }
    apply list_elem_of_lookup_1 in Hin as [i Hi].
    destruct (Forall2_lookup_l _ _ _ _ _ Hfs Hi) as (f & _ & Hf).
    apply row_feature_Ok in Hf as (lon & lat & _ & _ & Hflon & _ & Hflat & _).
    destruct Hbad; congruence.
  - exists e. split; [done|]. intros Hclat Hclon Hcols.
    unfold convert_to_geojson in He.
    rewrite dropna_present, bind_Ok_l in He by done. simpl records in He.
    destruct (iterrows_loop _ _ _ _ _ _) as [fs|e'] eqn:Hloop; [done|].
    injection He as ->.
    apply iterrows_loop_Raise_inv in Hloop as (row' & Hin' & Hraise).
    exists row'. split; [done|].
    apply row_feature_Raise_float in Hraise as [?|[_ ?]]; auto.
Qed.

End malformed.

(** C5, amended, on [malformed_frame]. *)
Lemma malformed_coordinate_raises_witness :
  ({[ "lat" := Timestamp 1741910400000000000;
      "lon" := PyFloat (Z_to_binary64 (-74)) ]} ∈ records malformed_frame) ∧
  (∀ rt : PyText,
     ∃ e,
       convert_to_geojson malformed_frame "lat" "lon" [] = Raise e ∧
       ("lat" ∈ columns malformed_frame → "lon" ∈ columns malformed_frame →
        Forall (λ col, col ∈ columns malformed_frame) [] →
        ∃ row', row' ∈ surviving malformed_frame "lat" "lon" ∧
                (py_float (cell row' "lon") = Raise e ∨
                 py_float (cell row' "lat") = Raise e))).
Proof.
  assert ({[ "lat" := Timestamp 1741910400000000000;
             "lon" := PyFloat (Z_to_binary64 (-74)) ]} ∈ records malformed_frame)
    as Hrow.
  { apply elem_of_cons; right. apply elem_of_cons; left. reflexivity. }
  split; [exact Hrow|]. intros rt.
  apply (malformed_coordinate_raises malformed_frame "lat" "lon" []
           _ TypeError Hrow); [reflexivity | reflexivity | left; reflexivity].
Defined.

(** C5, as stated, fails: the second row of [malformed_frame] holds a
    Timestamp for a latitude, which is present and which [float()] refuses;
    the converter raises [TypeError] and the Features of the first and the
    third row are lost with it. *)
Lemma malformed_coordinate_aborts_the_batch :
  isna (Timestamp 1741910400000000000) = false ∧
  (∀ rt : PyText, py_float (Timestamp 1741910400000000000) = Raise TypeError) ∧
  (∀ rt : PyText,
     convert_to_geojson malformed_frame "lat" "lon" [] = Raise TypeError).
Proof.
  split; [reflexivity|]. split; intros rt; vm_compute; reflexivity.
Qed.

(** *** Determinism *)

Section determinism.
Context {rt : PyText}.

Lemma foldl_insert_same_cells (r1 r2 acc : gmap string pyval) cols :
  Forall (λ col, cell r1 col = cell r2 col) cols →
  foldl (λ m col, <[col := normalized (cell r1 col)]> m) acc cols
  = foldl (λ m col, <[col := normalized (cell r2 col)]> m) acc cols.
Proof.
  intros H. revert acc. induction H as [|col cols Hcol _ IH]; intros acc; [done|].
  cbn [foldl]. by rewrite Hcol, IH.
Qed.

Lemma row_feature_same_cells df df' lat_col lon_col cols r1 r2 :
  columns df = columns df' →
  Forall (λ col, cell r1 col = cell r2 col) (lat_col :: lon_col :: cols) →
  row_feature df lat_col lon_col cols r1 = row_feature df' lat_col lon_col cols r2.
Proof.
  intros Hc (Hlat & (Hlon & Hcols)%Forall_cons)%Forall_cons.
  unfold row_feature. rewrite !build_properties_spec.
  unfold first_absent, getitem. rewrite Hc, Hlat, Hlon.
  by rewrite (foldl_insert_same_cells r1 r2 ∅ cols Hcols).
Qed.

Lemma iterrows_loop_same_cells df df' lat_col lon_col cols rows rows' acc :
  columns df = columns df' →
  Forall2 (λ r1 r2,
      Forall (λ col, cell r1 col = cell r2 col) (lat_col :: lon_col :: cols))
    rows rows' →
  iterrows_loop df lat_col lon_col cols rows acc
  = iterrows_loop df' lat_col lon_col cols rows' acc.
Proof.
  intros Hc H. revert acc.
  induction H as [|r1 r2 rows rows' Hr _ IH]; intros acc; [done|].
  simpl. rewrite (row_feature_same_cells df df' _ _ _ r1 r2 Hc Hr).
  destruct (row_feature df' lat_col lon_col cols r2); [|done].
  simpl. apply IH.
Qed.

Lemma notna_on_same_cells lat_col lon_col cols (r1 r2 : gmap string pyval) :
  Forall (λ col, cell r1 col = cell r2 col) (lat_col :: lon_col :: cols) →
  notna_on [lat_col; lon_col] r1 ↔ notna_on [lat_col; lon_col] r2.
Proof.
  intros (Hlat & (Hlon & _)%Forall_cons)%Forall_cons.
  by rewrite !notna_on_pair, Hlat, Hlon.
Qed.

(** C8. The result of the converter is a function of what it is given and
    of nothing else: two calls with the same column names, on frames with
    the same columns and, row by row, the same cells under the columns asked
    for, end the same way, with equal FeatureCollections or with the same
    error.  Two calls on the same input are the case [df' = df]. *)
Theorem convert_to_geojson_deterministic df df' lat_col lon_col cols :
  columns df = columns df' →
  Forall2 (λ r1 r2,
      Forall (λ col, cell r1 col = cell r2 col) (lat_col :: lon_col :: cols))
    (records df) (records df') →
  convert_to_geojson df lat_col lon_col cols
  = convert_to_geojson df' lat_col lon_col cols.
Proof.
  intros Hc Hrows. unfold convert_to_geojson, dropna. rewrite Hc.
  destruct (filter _ [lat_col; lon_col]); [|done].
  rewrite !bind_Ok_l. simpl records.
  erewrite iterrows_loop_same_cells; [done | done |].
  eapply Forall2_filter; [|exact Hrows]. simpl.
  intros r1 r2 H. by apply (notna_on_same_cells _ _ cols).
Qed.

End determinism.

(** C8 on two frames that differ in a column the call does not ask for. *)
Lemma convert_to_geojson_deterministic_witness :
  (columns station_frame = columns station_frame_repriced) ∧
  Forall2 (λ r1 r2,
      Forall (λ col, cell r1 col = cell r2 col) ["lat"; "lon"; "city"])
    (records station_frame) (records station_frame_repriced) ∧
  (∀ rt : PyText,
     convert_to_geojson station_frame "lat" "lon" ["city"] = Ok city_geojson) ∧
  (∀ rt : PyText,
     convert_to_geojson station_frame "lat" "lon" ["city"]
     = convert_to_geojson station_frame_repriced "lat" "lon" ["city"]).
Proof.
  assert (Forall2 (λ r1 r2 : gmap string pyval,
      Forall (λ col, cell r1 col = cell r2 col) ["lat"; "lon"; "city"])
    (records station_frame) (records station_frame_repriced)) as Hrows.
  { repeat constructor. }
  split; [reflexivity|]. split; [exact Hrows|].
  split; [intros rt; vm_compute; reflexivity|].
  intros rt.
  exact (convert_to_geojson_deterministic station_frame station_frame_repriced
           "lat" "lon" ["city"] eq_refl Hrows).
Defined.

(** *** Coordinate values *)

Section coordinate_values.
Context {rt : PyText}.

Lemma int_to_float_finite z x : int_to_float z = Ok x → is_finite x = true.
Proof.
  unfold int_to_float.
  destruct (is_finite (Z_to_binary64 z)) eqn:E; [|done]. by intros [= <-].
Qed.

(** [float()] of a cell that is present and is not text is never NaN. *)
Lemma py_float_not_nan v x :
  py_float v = Ok x → isna v = false → is_text v = false → is_nan x = false.
Proof.
  destruct v; simpl; try done.
  - intros H%int_to_float_finite _ _. by destruct x.
  - intros H%int_to_float_finite _ _. by destruct x.
  - by intros [= <-].
  - intros H%int_to_float_finite _ _. by destruct x.
  - intros H%int_to_float_finite _ _. by destruct x.
  - by intros [= <-].
Qed.

(** [float()] of a cell that is not text is infinite only for a float cell
    that is itself infinite. *)
Lemma py_float_infinite v x :
  py_float v = Ok x → is_text v = false → is_finite x = false →
  v = PyFloat x ∨ v = NpFloating x.
Proof.
  destruct v; simpl; try done.
  - intros H%int_to_float_finite. congruence.
  - intros H%int_to_float_finite. congruence.
  - intros [= <-]. by left.
  - intros H%int_to_float_finite. congruence.
  - intros H%int_to_float_finite. congruence.
  - intros [= <-]. by right.
Qed.

(** C9, amended. Whenever the converter returns, every Feature has both
    coordinate values present: its coordinates list is two floats, never a
    null.  A value read from a cell that is a number, not text, is never
    NaN, and it is infinite only when the cell is itself an infinite float,
    which the filter does not remove. *)
Theorem coordinates_are_present_and_not_nan df lat_col lon_col cols fc :
  convert_to_geojson df lat_col lon_col cols = Ok fc →
  Forall2 (λ row feature,
      ∃ lon lat,
        coordinates (geometry feature) = [lon; lat] ∧
        (is_text (cell row lon_col) = false →
         is_nan lon = false ∧
         (is_finite lon = false →
          cell row lon_col = PyFloat lon ∨ cell row lon_col = NpFloating lon)) ∧
        (is_text (cell row lat_col) = false →
         is_nan lat = false ∧
         (is_finite lat = false →
          cell row lat_col = PyFloat lat ∨ cell row lat_col = NpFloating lat)))
    (surviving df lat_col lon_col) (features fc).
Proof.
  intros (_ & _ & _ & Hfs)%convert_to_geojson_Ok.
  apply Forall2_same_length_lookup. split; [by eapply Forall2_length|].
  intros i row f Hrow Hf.
  pose proof (Forall2_lookup_lr _ _ _ _ _ _ Hfs Hrow Hf) as Hfeat.
  apply row_feature_Ok in Hfeat as (lon & lat & _ & _ & Hlon & _ & Hlat & ->).
  apply list_elem_of_lookup_2, list_elem_of_filter in Hrow as [Hna _].
  apply notna_on_pair in Hna as [Hna_lat Hna_lon].
  exists lon, lat. split; [done|]. split; intros Htext; split.
  - by eapply py_float_not_nan.
  - by eapply py_float_infinite.
  - by eapply py_float_not_nan.
  - by eapply py_float_infinite.
Qed.

(** Why C9 leaves text cells aside: a runtime whose [float()] reads "nan"
    as NaN, as Python's does, turns the text cell, which is not missing,
    into a NaN coordinate. *)
Lemma text_nan_is_emitted :
  float_of_str "nan" = Some S754_nan →
  convert_to_geojson text_frame "lat" "lon" []
  = Ok {| collection_type := "FeatureCollection";
          features :=
            [ {| feature_type := "Feature";
                 geometry :=
                   {| geometry_type := "Point";
                      coordinates := [binary64_ratio (-741) 10; S754_nan] |};
                 properties := ∅ |} ] |}.
Proof.
  intros Hnan.
  unfold convert_to_geojson. rewrite dropna_present by (by vm_compute).
  rewrite bind_Ok_l. simpl records.
  change (surviving text_frame "lat" "lon") with (records text_frame).
  cbn [records text_frame iterrows_loop]. unfold row_feature.
  cbn [build_properties]. rewrite !bind_Ok_l.
  rewrite !getitem_present by (by vm_compute). rewrite !bind_Ok_l.
  change (cell _ "lon") with (PyFloat (binary64_ratio (-741) 10)).
  change (cell _ "lat") with (PyStr "nan").
  cbn [py_float]. rewrite Hnan. reflexivity.
Qed.

End coordinate_values.

(** C9, amended, on [priced_frame]. *)
Lemma coordinates_are_present_and_not_nan_witness :
  (∀ rt : PyText,
     convert_to_geojson priced_frame "lat" "lon" ["price"; "open"]
     = Ok priced_geojson) ∧
  (∀ rt : PyText,
     Forall2 (λ row feature,
         ∃ lon lat,
           coordinates (geometry feature) = [lon; lat] ∧
           (is_text (cell row "lon") = false →
            is_nan lon = false ∧
            (is_finite lon = false →
             cell row "lon" = PyFloat lon ∨ cell row "lon" = NpFloating lon)) ∧
           (is_text (cell row "lat") = false →
            is_nan lat = false ∧
            (is_finite lat = false →
             cell row "lat" = PyFloat lat ∨ cell row "lat" = NpFloating lat)))
       (surviving priced_frame "lat" "lon") (features priced_geojson)).
Proof.
  split; intros rt; [vm_compute; reflexivity|].
  apply (coordinates_are_present_and_not_nan priced_frame "lat" "lon" ["price"; "open"]).
  vm_compute; reflexivity.
Defined.

(** C9, as stated, fails: an infinite latitude is not a missing one, so the
    row survives the filter and its Feature has the infinite latitude. *)
Lemma infinite_coordinate_is_emitted :
  ∃ feature,
    (∀ rt : PyText,
       convert_to_geojson infinite_frame "lat" "lon" []
       = Ok {| collection_type := "FeatureCollection"; features := [feature] |}) ∧
    coordinates (geometry feature)
    = [binary64_ratio (-741) 10; S754_infinity false] ∧
    is_finite (S754_infinity false) = false.
Proof.
  eexists. split; [intros rt; vm_compute; reflexivity|].
  split; reflexivity.
Qed.

(** *** No surviving row *)

Section no_survivor.
Context {rt : PyText}.

Lemma surviving_nil df lat_col lon_col :
  Forall (λ row, isna (cell row lat_col) = true ∨ isna (cell row lon_col) = true)
    (records df) →
  surviving df lat_col lon_col = [].
Proof.
  unfold surviving. induction 1 as [|row rows Hrow _ IH]; [done|].
  rewrite filter_cons_False; [done|].
  intros [Hlat Hlon]%notna_on_pair. destruct Hrow; congruence.
Qed.

(** C10, amended. When [lat_col] and [lon_col] are columns of the frame and
    the frame has no row, or every row lacks a latitude or a longitude, the
    converter returns the empty FeatureCollection whatever
    [properties_cols] holds: the names in it are never looked up, so one
    that is not a column raises nothing. *)
Theorem no_surviving_row_gives_empty_collection df lat_col lon_col cols :
  lat_col ∈ columns df → lon_col ∈ columns df →
  Forall (λ row, isna (cell row lat_col) = true ∨ isna (cell row lon_col) = true)
    (records df) →
  convert_to_geojson df lat_col lon_col cols
  = Ok {| collection_type := "FeatureCollection"; features := [] |}.
Proof.
  intros Hlat Hlon Hrows. unfold convert_to_geojson.
  rewrite dropna_present by done. rewrite bind_Ok_l. simpl records.
  by rewrite (surviving_nil _ _ _ Hrows).
Qed.

End no_survivor.

(** C10, amended, on [unlocated_frame], asked for a column it does not
    have. *)
Lemma no_surviving_row_gives_empty_collection_witness :
  ("lat" ∈ columns unlocated_frame) ∧ ("lon" ∈ columns unlocated_frame) ∧
  Forall (λ row, isna (cell row "lat") = true ∨ isna (cell row "lon") = true)
    (records unlocated_frame) ∧
  ("ghost" ∉ columns unlocated_frame) ∧
  (∀ rt : PyText,
     convert_to_geojson unlocated_frame "lat" "lon" ["city"; "ghost"]
     = Ok {| collection_type := "FeatureCollection"; features := [] |}).
Proof.
  assert ("lat" ∈ columns unlocated_frame) as Hlat by (by vm_compute).
  assert ("lon" ∈ columns unlocated_frame) as Hlon by (by vm_compute).
  assert (Forall
    (λ row, isna (cell row "lat") = true ∨ isna (cell row "lon") = true)
    (records unlocated_frame)) as Hrows.
  { repeat constructor; ((by left) || (by right)). }
  split; [exact Hlat|]. split; [exact Hlon|]. split; [exact Hrows|].
  split; [by vm_compute|]. intros rt.
  exact (no_surviving_row_gives_empty_collection unlocated_frame "lat" "lon"
           ["city"; "ghost"] Hlat Hlon Hrows).
Defined.

(** C10, as stated, fails: on a frame with no row and no latitude column,
    [dropna] raises before the loop is reached. *)
Lemma empty_input_without_columns_raises :
  records blank_frame = [] ∧
  (∀ rt : PyText,
     convert_to_geojson blank_frame "lat" "lon" []
     = Raise (KeyError ["lat"; "lon"])).
Proof. split; [reflexivity | intros rt; vm_compute; reflexivity]. Qed.

(** *** When the converter returns *)

Section returns.
Context {rt : PyText}.

Lemma Forall_Forall2_Ok {A B} (f : A → result B) (l : list A) :
  Forall (λ x, ∃ y, f x = Ok y) l → ∃ k, Forall2 (λ x y, f x = Ok y) l k.
Proof.
  induction 1 as [|x l [y Hy] _ [k Hk]]; [by exists []|].
  exists (y :: k). by constructor.
Qed.

(** With every column asked for in the frame and both coordinate cells of
    every surviving row convertible by [float()], the converter returns: a
    collection of type FeatureCollection with one Feature, of type Feature,
    per surviving row. *)
Theorem convert_to_geojson_returns df lat_col lon_col cols :
  lat_col ∈ columns df → lon_col ∈ columns df →
  Forall (λ col, col ∈ columns df) cols →
  Forall (λ row,
      (∃ lon, py_float (cell row lon_col) = Ok lon) ∧
      (∃ lat, py_float (cell row lat_col) = Ok lat))
    (surviving df lat_col lon_col) →
  ∃ fc,
    convert_to_geojson df lat_col lon_col cols = Ok fc ∧
    collection_type fc = "FeatureCollection" ∧
    length (features fc) = length (surviving df lat_col lon_col) ∧
    Forall (λ feature, feature_type feature = "Feature") (features fc).
Proof.
  intros Hlat Hlon Hcols Hrows.
  destruct (Forall_Forall2_Ok (row_feature df lat_col lon_col cols)
              (surviving df lat_col lon_col)) as [fs Hfs].
  { eapply Forall_impl; [exact Hrows|]. simpl.
    intros row [[lon Hflon] [lat Hflat]]. eexists.
    apply row_feature_Ok. by exists lon, lat. }
  exists {| collection_type := "FeatureCollection"; features := fs |}.
  split; [by apply convert_to_geojson_Ok|]. split; [done|].
  split; [symmetry; by eapply Forall2_length|]. simpl.
  eapply Forall2_Forall_r; [exact Hfs|].
  apply Forall_forall. intros row _ f Hf.
  by apply row_feature_Ok in Hf as (? & ? & _ & _ & _ & _ & _ & ->).
Qed.

(** The keys of the properties dict of every Feature are the names of
    [properties_cols], no more and no fewer. *)
Theorem properties_keys df lat_col lon_col cols fc :
  convert_to_geojson df lat_col lon_col cols = Ok fc →
  Forall (λ feature, dom (properties feature) = list_to_set cols) (features fc).
Proof.
  intros (_ & _ & _ & Hfs)%convert_to_geojson_Ok.
  eapply Forall2_Forall_r; [exact Hfs|].
  apply Forall_forall. intros row _ f Hf.
  apply set_eq. intros name.
  rewrite elem_of_dom, (row_feature_properties _ _ _ _ _ _ name Hf).
  rewrite elem_of_list_to_set. case_decide; split; done.
Qed.

End returns.

(** [convert_to_geojson_returns] on [priced_frame]. *)
Lemma convert_to_geojson_returns_witness :
  ("lat" ∈ columns priced_frame) ∧ ("lon" ∈ columns priced_frame) ∧
  Forall (λ col, col ∈ columns priced_frame) ["price"; "open"] ∧
  (∀ rt : PyText,
     Forall (λ row,
         (∃ lon, py_float (cell row "lon") = Ok lon) ∧
         (∃ lat, py_float (cell row "lat") = Ok lat))
       (surviving priced_frame "lat" "lon")) ∧
  (∀ rt : PyText,
     ∃ fc,
       convert_to_geojson priced_frame "lat" "lon" ["price"; "open"] = Ok fc ∧
       collection_type fc = "FeatureCollection" ∧
       length (features fc) = length (surviving priced_frame "lat" "lon") ∧
       Forall (λ feature, feature_type feature = "Feature") (features fc)).
Proof.
  assert ("lat" ∈ columns priced_frame) as Hlat by (by vm_compute).
  assert ("lon" ∈ columns priced_frame) as Hlon by (by vm_compute).
  assert (Forall (λ col, col ∈ columns priced_frame) ["price"; "open"]) as Hcols.
  { repeat constructor; by vm_compute. }
  assert (∀ rt : PyText,
     Forall (λ row,
         (∃ lon, py_float (cell row "lon") = Ok lon) ∧
         (∃ lat, py_float (cell row "lat") = Ok lat))
       (surviving priced_frame "lat" "lon")) as Hrows.
  { intros rt. change (surviving priced_frame "lat" "lon")
      with (records priced_frame).
    repeat constructor; eexists; vm_compute; reflexivity. }
  split; [exact Hlat|]. split; [exact Hlon|]. split; [exact Hcols|].
  split; [exact Hrows|]. intros rt.
  exact (convert_to_geojson_returns priced_frame "lat" "lon" ["price"; "open"]
           Hlat Hlon Hcols (Hrows rt)).
Defined.

(** [properties_keys] on [priced_frame]. *)
Lemma properties_keys_witness :
  (∀ rt : PyText,
     convert_to_geojson priced_frame "lat" "lon" ["price"; "open"]
     = Ok priced_geojson) ∧
  (∀ rt : PyText,
     Forall (λ feature, dom (properties feature) = list_to_set ["price"; "open"])
       (features priced_geojson)).
Proof.
  split; intros rt; [vm_compute; reflexivity|].
  apply (properties_keys priced_frame "lat" "lon" ["price"; "open"]).
  vm_compute; reflexivity.
Defined.

(** ** The latest observation date (lines 108-109) *)

Lemma getcolumn_present df col :
  col ∈ columns df → getcolumn df col = Ok ((λ row, cell row col) <$> records df).
Proof. intros. unfold getcolumn. by case_decide. Qed.

Lemma getcolumn_absent df col :
  col ∉ columns df → getcolumn df col = Raise (KeyError [col]).
Proof. intros. unfold getcolumn. by case_decide. Qed.

(** A mask computed from the rows themselves selects by the predicate. *)
Lemma zip_mask_filter {A} (f : A → bool) (l : list A) :
  fst <$> filter (λ rm, rm.2 = true) (zip l (f <$> l)) = filter (λ x, f x = true) l.
Proof.
  induction l as [|x l IH]; [done|].
  change (zip (x :: l) (f <$> x :: l)) with ((x, f x) :: zip l (f <$> l)).
  destruct (f x) eqn:Hfx.
  - rewrite filter_cons_True by done.
    rewrite (filter_cons_True _ x) by done.
    rewrite fmap_cons. by rewrite IH.
  - rewrite filter_cons_False by done.
    rewrite (filter_cons_False _ x) by (by rewrite Hfx).
    done.
Qed.

Lemma boolean_index_series_eq df col scalar :
  boolean_index df (series_eq ((λ row, cell row col) <$> records df) scalar)
  = Ok {| columns := columns df;
          records :=
            filter (λ row, datetime_eq (cell row col) scalar = true) (records df) |}.
Proof.
  unfold boolean_index, series_eq.
  rewrite decide_True by (by rewrite !length_fmap).
  rewrite <- list_fmap_compose.
  by rewrite (zip_mask_filter (λ row, datetime_eq (cell row col) scalar)).
Qed.

(** The step keeps a Timestamp accumulator at the largest value seen. *)
Lemma foldl_later_Timestamp a cells :
  ∃ t, foldl later (Timestamp a) cells = Timestamp t ∧ a ≤ t ∧
       (∀ t', Timestamp t' ∈ cells → t' ≤ t) ∧
       (t = a ∨ Timestamp t ∈ cells).
Proof.
  revert a. induction cells as [|v cells IH]; intros a.
  - exists a. repeat split; [lia | by intros t' ?%elem_of_nil | by left].
  - cbn [foldl]. destruct v as [| | | | | | | |b| |];
      try (destruct (IH a) as (t & Ht & Hle & Hmax & Hin); exists t;
           repeat split; [done | done | | destruct Hin; [by left | right; by apply elem_of_cons; right]];
           intros t' [[=]|?]%elem_of_cons; by apply Hmax).
    simpl. destruct (IH (Z.max a b)) as (t & Ht & Hle & Hmax & Hin).
    exists t. repeat split; [done | lia | |].
    + intros t' [[= ->]|?]%elem_of_cons; [lia | by apply Hmax].
    + destruct Hin as [->|Hin]; [|right; by apply elem_of_cons; right].
      destruct (Z.max_spec a b) as [[_ ->]|[_ ->]];
        [right; by apply elem_of_cons; left | by left].
Qed.

(** [Series.max()]: NaT when the Series holds no Timestamp, and otherwise a
    Timestamp of the Series that none exceeds. *)
Lemma series_max_spec cells :
  (series_max cells = NaT ∧ ∀ t, Timestamp t ∉ cells) ∨
  (∃ t, series_max cells = Timestamp t ∧ Timestamp t ∈ cells ∧
        ∀ t', Timestamp t' ∈ cells → t' ≤ t).
Proof.
  unfold series_max. induction cells as [|v cells IH].
  - left. split; [done | intros t ?%elem_of_nil; done].
  - cbn [foldl]. destruct v as [| | | | | | | |b| |];
      try (simpl; destruct IH as [[-> Hno]|(t & -> & Hin & Hmax)];
           [left; split; [done | by intros t [[=]|?%Hno]%elem_of_cons]
           |right; exists t; split; [done|]; split;
             [by apply elem_of_cons; right
             |by intros t' [[=]|?%Hmax]%elem_of_cons]]).
    simpl. right.
    destruct (foldl_later_Timestamp b cells) as (t & -> & Hle & Hmax & Hin).
    exists t. split; [done|]. split.
    + destruct Hin as [->|Hin]; apply elem_of_cons; [by left | by right].
    + intros t' [[= ->]|?]%elem_of_cons; [done | by apply Hmax].
Qed.

Lemma latest_slice_present df fecha :
  fecha ∈ columns df →
  latest_slice df fecha
  = Ok (series_max ((λ row, cell row fecha) <$> records df),
        {| columns := columns df; records := latest_rows df fecha |}).
Proof.
  intros Hcol. unfold latest_slice.
  rewrite getcolumn_present by done. rewrite !bind_Ok_l.
  by rewrite boolean_index_series_eq.
Qed.

Lemma latest_slice_absent df fecha :
  fecha ∉ columns df → latest_slice df fecha = Raise (KeyError [fecha]).
Proof. intros Hcol. unfold latest_slice. by rewrite getcolumn_absent. Qed.

Lemma datetime_eq_Timestamp v t :
  datetime_eq v (Timestamp t) = true ↔ v = Timestamp t.
Proof.
  destruct v; simpl; try (split; [done | by intros [=]]).
  rewrite bool_decide_eq_true. split; [by intros -> | by intros [= ->]].
Qed.

Lemma Timestamp_in_column (df : DataFrame) fecha t :
  Timestamp t ∈ (λ row, cell row fecha) <$> records df ↔
  ∃ row, row ∈ records df ∧ cell row fecha = Timestamp t.
Proof.
  rewrite list_elem_of_fmap. split.
  - intros (row & -> & Hin). by exists row.
  - intros (row & Hin & <-). by exists row.
Qed.

(** A row is among the latest rows when it is dated and no row of the frame
    is dated later. *)
Lemma latest_rows_elem df fecha row :
  row ∈ latest_rows df fecha ↔
  row ∈ records df ∧
  ∃ t, cell row fecha = Timestamp t ∧
       ∀ row' t', row' ∈ records df → cell row' fecha = Timestamp t' → t' ≤ t.
Proof.
  unfold latest_rows. rewrite list_elem_of_filter.
  destruct (series_max_spec ((λ row, cell row fecha) <$> records df))
    as [[-> Hno]|(tm & -> & Hin & Hmax)].
  - split.
    + intros [Heq _]. by destruct (cell row fecha).
    + intros (Hrow & t & Ht & _). exfalso. apply (Hno t).
      apply Timestamp_in_column. by exists row.
  - rewrite datetime_eq_Timestamp. split.
    + intros [Heq Hrow]. split; [done|]. exists tm. split; [done|].
      intros row' t' Hrow' Ht'. apply Hmax, Timestamp_in_column. by exists row'.
    + intros (Hrow & t & Ht & Hlatest). split; [|done].
      apply Timestamp_in_column in Hin as (rowm & Hrowm & Hm).
      assert (t = tm) as ->; [|done].
      apply Z.le_antisymm.
      * apply Hmax, Timestamp_in_column. by exists row.
      * by apply (Hlatest rowm).
Qed.

Lemma dated_latest_spec df fecha row :
  dated_latest df fecha row = true ↔
  ∃ t, cell row fecha = Timestamp t ∧
       ∀ row' t', row' ∈ records df → cell row' fecha = Timestamp t' → t' ≤ t.
Proof.
  unfold dated_latest. destruct (cell row fecha) as [| | | | | | | |t| |];
    try (split; [done | by intros (? & [=] & _)]).
  rewrite forallb_forall. split.
  - intros Hall. exists t. split; [done|]. intros row' t' Hrow' Ht'.
    apply list_elem_of_In, Hall in Hrow'. rewrite Ht' in Hrow'.
    by apply bool_decide_eq_true in Hrow'.
  - intros (t0 & [= <-] & Hlatest) row' Hrow'%list_elem_of_In.
    destruct (cell row' fecha) eqn:Hc; try done.
    apply bool_decide_eq_true. by apply (Hlatest row').
Qed.

Lemma filter_ext_in {A} (P Q : A → Prop) `{!∀ x, Decision (P x)}
    `{!∀ x, Decision (Q x)} (l : list A) :
  (∀ x, x ∈ l → P x ↔ Q x) → filter P l = filter Q l.
Proof.
  induction l as [|x l IH]; intros Hext; [done|].
  rewrite !filter_cons.
  assert (P x ↔ Q x) as Hx by (apply Hext, elem_of_cons; by left).
  rewrite IH by (intros y Hy; apply Hext, elem_of_cons; by right).
  destruct (decide (P x)), (decide (Q x)); tauto || done.
Qed.

(** The rows the mask of line 109 keeps are the rows carrying the latest
    date, each as often as the frame holds it. *)
Lemma latest_rows_filter df fecha :
  latest_rows df fecha
  = filter (λ row, dated_latest df fecha row = true) (records df).
Proof.
  unfold latest_rows. apply filter_ext_in. intros row Hrow.
  rewrite dated_latest_spec.
  pose proof (latest_rows_elem df fecha row) as Helem.
  unfold latest_rows in Helem. rewrite list_elem_of_filter in Helem. tauto.
Qed.

(** [df_ultimo_mes] is the frame with its columns and, of its rows, those
    that carry the latest date, in frame order and each as often as the
    frame holds it; [ultimo_mes] is the date of every one of them. *)
Theorem latest_slice_keeps_the_latest_rows df fecha :
  fecha ∈ columns df → datetime_column df fecha →
  ∃ ultimo_mes,
    latest_slice df fecha
    = Ok (ultimo_mes,
          {| columns := columns df;
             records :=
               filter (λ row, dated_latest df fecha row = true) (records df) |}) ∧
    Forall (λ row, cell row fecha = ultimo_mes)
      (filter (λ row, dated_latest df fecha row = true) (records df)) ∧
    ∀ row,
      dated_latest df fecha row = true ↔
      ∃ t, cell row fecha = Timestamp t ∧
           ∀ row' t', row' ∈ records df → cell row' fecha = Timestamp t' → t' ≤ t.
Proof.
  intros Hcol _. eexists. rewrite <- latest_rows_filter.
  split; [by apply latest_slice_present|]. split.
  - apply Forall_forall. intros row [Heq _]%list_elem_of_filter.
    destruct (series_max _); try (by destruct (cell row fecha)).
    by apply datetime_eq_Timestamp in Heq.
  - apply dated_latest_spec.
Qed.

Lemma filter_datetime_eq_NaT fecha (rows : list (gmap string pyval)) :
  filter (λ row, datetime_eq (cell row fecha) NaT = true) rows = [].
Proof.
  induction rows as [|row rows IH]; [done|].
  rewrite filter_cons_False; [done | by destruct (cell row fecha)].
Qed.

(** The slice is empty exactly when no row of the frame is dated: then
    [ultimo_mes] is NaT; otherwise it is a Timestamp. *)
Theorem latest_slice_is_empty_iff_undated df fecha ultimo_mes df_ultimo_mes :
  datetime_column df fecha →
  latest_slice df fecha = Ok (ultimo_mes, df_ultimo_mes) →
  (records df_ultimo_mes = [] ↔ Forall (λ row, cell row fecha = NaT) (records df)) ∧
  (ultimo_mes = NaT ↔ Forall (λ row, cell row fecha = NaT) (records df)) ∧
  (records df_ultimo_mes ≠ [] → ∃ t, ultimo_mes = Timestamp t).
Proof.
  intros Hdt Hslice.
  destruct (decide (fecha ∈ columns df)) as [Hcol|Hcol];
    [|by rewrite latest_slice_absent in Hslice].
  rewrite latest_slice_present in Hslice by done. injection Hslice as <- <-.
  simpl. unfold latest_rows.
  assert ((∀ t, Timestamp t ∉ (λ row, cell row fecha) <$> records df) ↔
          Forall (λ row, cell row fecha = NaT) (records df)) as Hnone.
  { rewrite Forall_forall. split.
    - intros Hno row Hrow. unfold datetime_column in Hdt.
      rewrite Forall_forall in Hdt. specialize (Hdt row Hrow).
      destruct (cell row fecha) eqn:Hc; try done.
      exfalso. eapply Hno, Timestamp_in_column. by exists row.
    - intros Hall t (row & Hrow & Ht)%Timestamp_in_column.
      rewrite (Hall row Hrow) in Ht. done. }
  destruct (series_max_spec ((λ row, cell row fecha) <$> records df))
    as [[-> Hno]|(tm & -> & Hin & Hmax)].
  - split; [|split].
    + split; [intros _; by apply Hnone|intros _].
      apply filter_datetime_eq_NaT.
    + split; [intros _; by apply Hnone | done].
    + intros Hne. exfalso. apply Hne, filter_datetime_eq_NaT.
  - apply Timestamp_in_column in Hin as (rowm & Hrowm & Hm).
    assert (¬ Forall (λ row, cell row fecha = NaT) (records df)) as Hnot.
    { rewrite Forall_forall. intros Hall. rewrite (Hall rowm Hrowm) in Hm. done. }
    assert (rowm ∈ filter
              (λ row, datetime_eq (cell row fecha) (Timestamp tm) = true)
              (records df)) as Hkept.
    { apply list_elem_of_filter. split; [by apply datetime_eq_Timestamp|done]. }
    split; [|split].
    + split; [|done]. intros Hnil. rewrite Hnil in Hkept.
      by apply elem_of_nil in Hkept.
    + split; [done | done].
    + intros _. by exists tm.
Qed.

(** ** The map document and the scatter map (lines 108-142) *)

Section map_document.
Context {rt : PyText}.

Lemma geojson_data_present df :
  fecha_col ∈ columns df →
  geojson_data df
  = convert_to_geojson
      {| columns := columns df; records := latest_rows df fecha_col |}
      "LATITUD_MUNICIPIO" "LONGITUD_MUNICIPIO" propiedades.
Proof.
  intros Hcol. unfold geojson_data. by rewrite latest_slice_present.
Qed.

Lemma geojson_data_absent df :
  fecha_col ∉ columns df → geojson_data df = Raise (KeyError [fecha_col]).
Proof.
  intros Hcol. unfold geojson_data. by rewrite latest_slice_absent.
Qed.

(** [geojson_data] holds one Feature for each row of the frame that carries
    the latest date and both coordinates, in frame order and each as often
    as the frame holds it, and nothing else: each Feature has the
    coordinates of its row, longitude first, and the municipality, the
    department and the price of its row as properties. *)
Theorem geojson_data_covers_the_latest_located_rows df fc :
  datetime_column df fecha_col →
  geojson_data df = Ok fc →
  Forall2 (λ row feature,
      (∃ lon lat,
         py_float (cell row "LONGITUD_MUNICIPIO") = Ok lon ∧
         py_float (cell row "LATITUD_MUNICIPIO") = Ok lat ∧
         coordinates (geometry feature) = [lon; lat]) ∧
      ∀ name,
        properties feature !! name
        = if decide (name ∈ propiedades)
          then Some (normalized (cell row name)) else None)
    (filter (λ row,
         dated_latest df fecha_col row = true ∧
         isna (cell row "LATITUD_MUNICIPIO") = false ∧
         isna (cell row "LONGITUD_MUNICIPIO") = false)
       (records df))
    (features fc) ∧
  ∀ row,
    dated_latest df fecha_col row = true ↔
    ∃ t, cell row fecha_col = Timestamp t ∧
         ∀ row' t', row' ∈ records df → cell row' fecha_col = Timestamp t' → t' ≤ t.
Proof.
  intros _ Hfc. split; [|apply dated_latest_spec].
  destruct (decide (fecha_col ∈ columns df)) as [Hcol|Hcol];
    [|by rewrite geojson_data_absent in Hfc].
  rewrite geojson_data_present in Hfc by done.
  apply convert_to_geojson_Ok in Hfc as (_ & _ & _ & Hfs).
  assert (surviving
            {| columns := columns df; records := latest_rows df fecha_col |}
            "LATITUD_MUNICIPIO" "LONGITUD_MUNICIPIO"
          = filter (λ row,
                dated_latest df fecha_col row = true ∧
                isna (cell row "LATITUD_MUNICIPIO") = false ∧
                isna (cell row "LONGITUD_MUNICIPIO") = false)
              (records df)) as Hrows.
  { unfold surviving. cbn [records].
    rewrite latest_rows_filter, list_filter_filter.
    apply list_filter_iff. intros row.
    pose proof (notna_on_pair "LATITUD_MUNICIPIO" "LONGITUD_MUNICIPIO" row).
    tauto. }
  rewrite Hrows in Hfs.
  eapply Forall2_impl; [exact Hfs|]. simpl. intros row f Hf. split.
  - pose proof Hf as (lon & lat & _ & _ & Hlon & _ & Hlat & ->)%row_feature_Ok.
    by exists lon, lat.
  - intros name. by apply row_feature_properties with (name := name) in Hf.
Qed.

End map_document.

(** The rows a predicate keeps and the rows it rejects make up the list. *)
Lemma length_filter_complement {A} (P : A → Prop) `{!∀ x, Decision (P x)}
    (l : list A) :
  (length (filter P l) + length (filter (λ x, ¬ P x) l))%nat = length l.
Proof.
  rewrite <- length_app. apply Permutation_length, filter_app_complement.
Qed.

(** The scatter map is drawn from the rows of the slice that have both
    coordinates, the rows [convert_to_geojson] makes Features of, while its
    [size] list has one entry per row of the slice: the list is longer than
    the frame by the number of rows that lack a coordinate, and as long
    exactly when no row does. *)
Theorem scatter_size_counts_the_unlocated_rows df_ultimo_mes :
  "LATITUD_MUNICIPIO" ∈ columns df_ultimo_mes →
  "LONGITUD_MUNICIPIO" ∈ columns df_ultimo_mes →
  ∃ frame size,
    scatter_arguments df_ultimo_mes = Ok (frame, size) ∧
    records frame
    = surviving df_ultimo_mes "LATITUD_MUNICIPIO" "LONGITUD_MUNICIPIO" ∧
    length size
    = (length (records frame) +
       length (filter
                 (λ row, ¬ notna_on ["LATITUD_MUNICIPIO"; "LONGITUD_MUNICIPIO"] row)
                 (records df_ultimo_mes)))%nat ∧
    (length size = length (records frame) ↔
     Forall (λ row, isna (cell row "LATITUD_MUNICIPIO") = false ∧
                    isna (cell row "LONGITUD_MUNICIPIO") = false)
       (records df_ultimo_mes)).
Proof.
  intros Hlat Hlon. unfold scatter_arguments.
  rewrite dropna_present by done. rewrite bind_Ok_l.
  eexists _, _. split; [done|]. simpl. split; [done|].
  rewrite length_replicate. unfold surviving. split.
  - symmetry. apply length_filter_complement.
  - split.
    + intros Hlen. symmetry in Hlen. apply length_filter_eq in Hlen.
      eapply Forall_impl; [exact Hlen|]. intros row. apply notna_on_pair.
    + intros Hall. symmetry. apply length_filter_eq.
      eapply Forall_impl; [exact Hall|]. intros row. apply notna_on_pair.
Qed.

(** ** The page (lines 65-201) *)

Section page.
Context {rt : PyText} {figure : Type}.
Variable load_and_plot : option (DataFrame * StatFigures figure).
Variable draw_maps :
  pyval → DataFrame → FeatureCollection → option (MapFigures figure).

Lemma page_of_failed_block blank :
  try_block load_and_plot draw_maps = None →
  page load_and_plot draw_maps blank = error_page.
Proof.
  intros Hnone. unfold page, graficos_disponibles. rewrite Hnone.
  rewrite bool_decide_eq_false_2 by (by intros [? ?]). done.
Qed.

(** An exception of the conversion costs the whole page: when the frame was
    loaded and [geojson_data] raises, for a date column that is missing, a
    coordinate column that is missing, a property column that is missing or
    a coordinate that [float()] refuses, the script ends with the error
    page, statistical figures included. *)
Theorem failed_conversion_gives_the_error_page blank df stats e :
  load_and_plot = Some (df, stats) →
  geojson_data df = Raise e →
  page load_and_plot draw_maps blank = error_page.
Proof.
  intros Hload Hgeo. apply page_of_failed_block.
  unfold try_block. rewrite Hload. unfold geojson_data in Hgeo.
  destruct (latest_slice df fecha_col) as [[ultimo_mes df_ultimo_mes]|e'];
    [|done].
  rewrite bind_Ok_l in Hgeo. by rewrite Hgeo.
Qed.

(** The script ends with one of two pages.  When the block ran to its end,
    the page is a title, a note and a bar of nine tabs, each holding one
    graph: the scatter map first, then the eight statistical figures in the
    order of lines 175-182; the choropleth figure of line 121 is not placed
    on it.  When the block raised, the page is the error page, which holds
    no graph; a bar with no tab is never shown. *)
Theorem page_is_the_dashboard_or_the_error_page blank :
  match try_block load_and_plot draw_maps with
  | Some (stats, maps) =>
      (∃ title note tabs,
         page load_and_plot draw_maps blank = Div [title; note; Tabs tabs] ∧
         length tabs = 9%nat ∧
         Forall (λ tab, ∃ label fig, tab = Tab label [Graph fig]) tabs) ∧
      graphs (page load_and_plot draw_maps blank)
      = [ fig_mapa_scatter maps; fig_hist stats; fig_box stats; fig_line stats;
          fig_trend stats; fig_anual_mes stats; fig_bar stats;
          fig_top_municipios stats; fig_corr stats ]
  | None =>
      page load_and_plot draw_maps blank = error_page ∧
      graphs (page load_and_plot draw_maps blank) = []
  end.
Proof.
  destruct (try_block load_and_plot draw_maps) as [[stats maps]|] eqn:Hblock.
  - unfold page, graficos_disponibles. rewrite Hblock.
    rewrite bool_decide_eq_true_2 by (by eexists). split; [|done].
    eexists _, _, _. split; [done|]. split; [done|].
    repeat constructor; by eexists _, _.
  - rewrite (page_of_failed_block blank Hblock). by split.
Qed.

End page.

(** ** More on [convert_to_geojson] *)

Lemma Forall2_Forall_iff {A B} (P : A → Prop) (Q : B → Prop) (l : list A)
    (k : list B) :
  Forall2 (λ x y, P x ↔ Q y) l k → Forall P l ↔ Forall Q k.
Proof.
  induction 1 as [|x y l k Hxy _ IH]; [by split|].
  rewrite !Forall_cons. tauto.
Qed.

Section more.
Context {rt : PyText}.

Lemma normalized_json_scalar_iff v :
  json_scalar (normalized v) = true ↔
  stringified v = true ∨ json_scalar v = true.
Proof.
  split; [|apply normalized_json_scalar]. unfold normalized.
  destruct (stringified v); [by left | by right].
Qed.

(** Whenever the converter returns, every property value of every Feature
    is a string, a number, a boolean or null exactly when every cell asked
    for, in every surviving row, is one of the four stringified classes or
    already such a value. *)
Theorem properties_are_json_scalars_iff df lat_col lon_col cols fc :
  convert_to_geojson df lat_col lon_col cols = Ok fc →
  Forall (λ feature,
      map_Forall (λ _ v, json_scalar v = true) (properties feature))
    (features fc) ↔
  Forall (λ row,
      Forall (λ name, stringified (cell row name) = true ∨
                      json_scalar (cell row name) = true) cols)
    (surviving df lat_col lon_col).
Proof.
  intros (_ & _ & _ & Hfs)%convert_to_geojson_Ok. symmetry.
  apply Forall2_Forall_iff. eapply Forall2_impl; [exact Hfs|]. simpl.
  intros row f Hf. rewrite Forall_forall. unfold map_Forall. split.
  - intros Hcells name v.
    rewrite (row_feature_properties _ _ _ _ _ _ name Hf).
    case_decide; [|done]. intros [= <-].
    by apply normalized_json_scalar, Hcells.
  - intros Hvals name Hname. apply normalized_json_scalar_iff.
    apply (Hvals name).
    rewrite (row_feature_properties _ _ _ _ _ _ name Hf).
    by rewrite decide_True.
Qed.

(** Converting the rows in two batches and joining the Features is
    converting them at once: the call on a frame returns exactly when the
    calls on a first part and on the rest of its rows both return, and then
    its features are theirs, one list after the other. *)
Theorem convert_to_geojson_of_two_batches cs rows1 rows2 lat_col lon_col cols fc :
  convert_to_geojson {| columns := cs; records := rows1 ++ rows2 |}
    lat_col lon_col cols = Ok fc ↔
  ∃ fc1 fc2,
    convert_to_geojson {| columns := cs; records := rows1 |}
      lat_col lon_col cols = Ok fc1 ∧
    convert_to_geojson {| columns := cs; records := rows2 |}
      lat_col lon_col cols = Ok fc2 ∧
    fc = {| collection_type := "FeatureCollection";
            features := features fc1 ++ features fc2 |}.
Proof.
  rewrite convert_to_geojson_Ok. unfold surviving. cbn [records columns].
  rewrite filter_app. split.
  - intros (Hlat & Hlon & Htype & Hfs).
    apply Forall2_app_inv_l in Hfs as (fs1 & fs2 & Hfs1 & Hfs2 & Hfc).
    exists {| collection_type := "FeatureCollection"; features := fs1 |},
           {| collection_type := "FeatureCollection"; features := fs2 |}.
    split; [|split].
    + apply convert_to_geojson_Ok. repeat split; try done.
      eapply Forall2_impl; [exact Hfs1|]. intros row f <-.
      by apply row_feature_same_columns.
    + apply convert_to_geojson_Ok. repeat split; try done.
      eapply Forall2_impl; [exact Hfs2|]. intros row f <-.
      by apply row_feature_same_columns.
    + destruct fc as [t fs]. simpl in *. by subst.
  - intros (fc1 & fc2 & (Hlat & Hlon & _ & Hfs1)%convert_to_geojson_Ok
                      & (_ & _ & _ & Hfs2)%convert_to_geojson_Ok & ->).
    repeat split; try done. simpl. apply Forall2_app.
    + eapply Forall2_impl; [exact Hfs1|]. intros row f <-.
      by apply row_feature_same_columns.
    + eapply Forall2_impl; [exact Hfs2|]. intros row f <-.
      by apply row_feature_same_columns.
Qed.

Lemma iterrows_loop_app df lat_col lon_col cols pre rest acc fs :
  Forall2 (λ row f, row_feature df lat_col lon_col cols row = Ok f) pre fs →
  iterrows_loop df lat_col lon_col cols (pre ++ rest) acc
  = iterrows_loop df lat_col lon_col cols rest (acc ++ fs).
Proof.
  intros H. revert acc. induction H as [|row f pre fs Hf _ IH]; intros acc.
  - by rewrite app_nil_r.
  - cbn [app iterrows_loop]. rewrite Hf, bind_Ok_l, IH.
    by rewrite <- app_assoc.
Qed.

(** The converter stops at the first surviving row it cannot make a Feature
    of and raises that row's error: the rows after it are not looked at,
    whatever they hold. *)
Theorem first_failing_row_decides df lat_col lon_col cols pre row post e :
  lat_col ∈ columns df → lon_col ∈ columns df →
  surviving df lat_col lon_col = pre ++ row :: post →
  Forall (λ r, ∃ f, row_feature df lat_col lon_col cols r = Ok f) pre →
  row_feature df lat_col lon_col cols row = Raise e →
  convert_to_geojson df lat_col lon_col cols = Raise e.
Proof.
  intros Hlat Hlon Hrows Hpre Hrow. unfold convert_to_geojson.
  rewrite dropna_present by done. rewrite bind_Ok_l. cbn [records].
  rewrite Hrows.
  destruct (Forall_Forall2_Ok (row_feature df lat_col lon_col cols) pre Hpre)
    as [fs Hfs].
  erewrite iterrows_loop_app; last first.
  { eapply Forall2_impl; [exact Hfs|]. intros r f <-.
    by apply row_feature_same_columns. }
  erewrite iterrows_loop_Raise; [done|].
  by erewrite row_feature_same_columns.
Qed.

End more.

(** ** The theorems of the script on a sample frame *)

(** [latest_slice_keeps_the_latest_rows] on [gncv_frame]: three of the five
    rows. *)
Lemma latest_slice_keeps_the_latest_rows_witness :
  (fecha_col ∈ columns gncv_frame) ∧ datetime_column gncv_frame fecha_col ∧
  filter (λ row, dated_latest gncv_frame fecha_col row = true)
    (records gncv_frame)
  = [row_bogota; row_acacias; row_medellin] ∧
  ∃ ultimo_mes,
    latest_slice gncv_frame fecha_col
    = Ok (ultimo_mes,
          {| columns := columns gncv_frame;
             records :=
               filter (λ row, dated_latest gncv_frame fecha_col row = true)
                 (records gncv_frame) |}) ∧
    Forall (λ row, cell row fecha_col = ultimo_mes)
      (filter (λ row, dated_latest gncv_frame fecha_col row = true)
         (records gncv_frame)) ∧
    ∀ row,
      dated_latest gncv_frame fecha_col row = true ↔
      ∃ t, cell row fecha_col = Timestamp t ∧
           ∀ row' t', row' ∈ records gncv_frame →
                      cell row' fecha_col = Timestamp t' → t' ≤ t.
Proof.
  assert (fecha_col ∈ columns gncv_frame) as Hcol by (by vm_compute).
  assert (datetime_column gncv_frame fecha_col) as Hdt
    by (repeat constructor).
  split; [exact Hcol|]. split; [exact Hdt|].
  split; [vm_compute; reflexivity|].
  exact (latest_slice_keeps_the_latest_rows gncv_frame fecha_col Hcol Hdt).
Defined.

(** [latest_slice_is_empty_iff_undated] on [gncv_frame]. *)
Lemma latest_slice_is_empty_iff_undated_witness :
  datetime_column gncv_frame fecha_col ∧
  latest_slice gncv_frame fecha_col
  = Ok (Timestamp 1741910400000000000, gncv_latest) ∧
  (records gncv_latest = [] ↔
   Forall (λ row, cell row fecha_col = NaT) (records gncv_frame)) ∧
  (Timestamp 1741910400000000000 = NaT ↔
   Forall (λ row, cell row fecha_col = NaT) (records gncv_frame)) ∧
  (records gncv_latest ≠ [] → ∃ t, Timestamp 1741910400000000000 = Timestamp t).
Proof.
  assert (datetime_column gncv_frame fecha_col) as Hdt
    by (repeat constructor).
  assert (latest_slice gncv_frame fecha_col
          = Ok (Timestamp 1741910400000000000, gncv_latest)) as Hslice
    by (vm_compute; reflexivity).
  split; [exact Hdt|]. split; [exact Hslice|].
  exact (latest_slice_is_empty_iff_undated gncv_frame fecha_col _ _ Hdt Hslice).
Defined.

(** [geojson_data_covers_the_latest_located_rows] on [gncv_frame]: two
    Features, for Bogota and for Medellin. *)
Lemma geojson_data_covers_the_latest_located_rows_witness :
  datetime_column gncv_frame fecha_col ∧
  (∀ rt : PyText, geojson_data gncv_frame = Ok gncv_geojson) ∧
  filter (λ row,
      dated_latest gncv_frame fecha_col row = true ∧
      isna (cell row "LATITUD_MUNICIPIO") = false ∧
      isna (cell row "LONGITUD_MUNICIPIO") = false)
    (records gncv_frame)
  = [row_bogota; row_medellin] ∧
  (∀ rt : PyText,
     Forall2 (λ row feature,
         (∃ lon lat,
            py_float (cell row "LONGITUD_MUNICIPIO") = Ok lon ∧
            py_float (cell row "LATITUD_MUNICIPIO") = Ok lat ∧
            coordinates (geometry feature) = [lon; lat]) ∧
         ∀ name,
           properties feature !! name
           = if decide (name ∈ propiedades)
             then Some (normalized (cell row name)) else None)
       (filter (λ row,
            dated_latest gncv_frame fecha_col row = true ∧
            isna (cell row "LATITUD_MUNICIPIO") = false ∧
            isna (cell row "LONGITUD_MUNICIPIO") = false)
          (records gncv_frame))
       (features gncv_geojson) ∧
     ∀ row,
       dated_latest gncv_frame fecha_col row = true ↔
       ∃ t, cell row fecha_col = Timestamp t ∧
            ∀ row' t', row' ∈ records gncv_frame →
                       cell row' fecha_col = Timestamp t' → t' ≤ t).
Proof.
  assert (datetime_column gncv_frame fecha_col) as Hdt
    by (repeat constructor).
  split; [exact Hdt|]. split; [intros rt; vm_compute; reflexivity|].
  split; [vm_compute; reflexivity|]. intros rt.
  apply (geojson_data_covers_the_latest_located_rows gncv_frame gncv_geojson Hdt).
  vm_compute; reflexivity.
Defined.

(** [scatter_size_counts_the_unlocated_rows] on [gncv_latest]: three entries
    in [size] for the two rows drawn. *)
Lemma scatter_size_counts_the_unlocated_rows_witness :
  ("LATITUD_MUNICIPIO" ∈ columns gncv_latest) ∧
  ("LONGITUD_MUNICIPIO" ∈ columns gncv_latest) ∧
  scatter_arguments gncv_latest = Ok (gncv_located, [10; 10; 10]) ∧
  ∃ frame size,
    scatter_arguments gncv_latest = Ok (frame, size) ∧
    records frame
    = surviving gncv_latest "LATITUD_MUNICIPIO" "LONGITUD_MUNICIPIO" ∧
    length size
    = (length (records frame) +
       length (filter
                 (λ row, ¬ notna_on ["LATITUD_MUNICIPIO"; "LONGITUD_MUNICIPIO"] row)
                 (records gncv_latest)))%nat ∧
    (length size = length (records frame) ↔
     Forall (λ row, isna (cell row "LATITUD_MUNICIPIO") = false ∧
                    isna (cell row "LONGITUD_MUNICIPIO") = false)
       (records gncv_latest)).
Proof.
  assert ("LATITUD_MUNICIPIO" ∈ columns gncv_latest) as Hlat by (by vm_compute).
  assert ("LONGITUD_MUNICIPIO" ∈ columns gncv_latest) as Hlon by (by vm_compute).
  split; [exact Hlat|]. split; [exact Hlon|].
  split; [vm_compute; reflexivity|].
  exact (scatter_size_counts_the_unlocated_rows gncv_latest Hlat Hlon).
Defined.

(** [failed_conversion_gives_the_error_page] on [gncv_frame_malformed]: one
    Timestamp in a latitude cell of the latest date, and no figure is shown. *)
Lemma failed_conversion_gives_the_error_page_witness :
  (∀ rt : PyText, geojson_data gncv_frame_malformed = Raise TypeError) ∧
  (∀ (rt : PyText) (figure : Type) (stats : StatFigures figure)
     (draw_maps : pyval → DataFrame → FeatureCollection → option (MapFigures figure))
     (blank : StatFigures figure * MapFigures figure),
     page (Some (gncv_frame_malformed, stats)) draw_maps blank = error_page).
Proof.
  assert (∀ rt : PyText, geojson_data gncv_frame_malformed = Raise TypeError)
    as Hgeo by (intros rt; vm_compute; reflexivity).
  split; [exact Hgeo|]. intros rt figure stats draw_maps blank.
  exact (failed_conversion_gives_the_error_page
           (Some (gncv_frame_malformed, stats)) draw_maps blank
           gncv_frame_malformed stats TypeError eq_refl (Hgeo rt)).
Defined.

(** [properties_are_json_scalars_iff] on [priced_frame]. *)
Lemma properties_are_json_scalars_iff_witness :
  (∀ rt : PyText,
     convert_to_geojson priced_frame "lat" "lon" ["price"; "open"]
     = Ok priced_geojson) ∧
  (∀ rt : PyText,
     Forall (λ feature,
         map_Forall (λ _ v, json_scalar v = true) (properties feature))
       (features priced_geojson) ↔
     Forall (λ row,
         Forall (λ name, stringified (cell row name) = true ∨
                         json_scalar (cell row name) = true) ["price"; "open"])
       (surviving priced_frame "lat" "lon")).
Proof.
  split; intros rt; [vm_compute; reflexivity|].
  apply (properties_are_json_scalars_iff priced_frame "lat" "lon" ["price"; "open"]).
  vm_compute; reflexivity.
Defined.

(** [first_failing_row_decides] on [malformed_frame]: the second row fails,
    the third is not looked at. *)
Lemma first_failing_row_decides_witness :
  ("lat" ∈ columns malformed_frame) ∧ ("lon" ∈ columns malformed_frame) ∧
  (∃ good bad rest,
     surviving malformed_frame "lat" "lon" = [good] ++ bad :: [rest] ∧
     (∀ rt : PyText,
        Forall (λ r, ∃ f, row_feature malformed_frame "lat" "lon" [] r = Ok f)
          [good]) ∧
     (∀ rt : PyText,
        row_feature malformed_frame "lat" "lon" [] bad = Raise TypeError)) ∧
  (∀ rt : PyText,
     convert_to_geojson malformed_frame "lat" "lon" [] = Raise TypeError).
Proof.
  assert ("lat" ∈ columns malformed_frame) as Hlat by (by vm_compute).
  assert ("lon" ∈ columns malformed_frame) as Hlon by (by vm_compute).
  pose (good := {[ "lat" := PyFloat (binary64_ratio 45 10);
                   "lon" := PyFloat (binary64_ratio (-741) 10) ]}
                : gmap string pyval).
  pose (bad := {[ "lat" := Timestamp 1741910400000000000;
                  "lon" := PyFloat (Z_to_binary64 (-74)) ]}
               : gmap string pyval).
  pose (rest := {[ "lat" := PyFloat (Z_to_binary64 6);
                   "lon" := PyFloat (Z_to_binary64 (-75)) ]}
                : gmap string pyval).
  assert (surviving malformed_frame "lat" "lon" = [good] ++ bad :: [rest])
    as Hrows by (vm_compute; reflexivity).
  assert (∀ rt : PyText,
            Forall (λ r, ∃ f, row_feature malformed_frame "lat" "lon" [] r = Ok f)
              [good]) as Hgood.
  { intros rt. repeat constructor. eexists. vm_compute; reflexivity. }
  assert (∀ rt : PyText,
            row_feature malformed_frame "lat" "lon" [] bad = Raise TypeError)
    as Hbad by (intros rt; vm_compute; reflexivity).
  split; [exact Hlat|]. split; [exact Hlon|]. split.
  { exists good, bad, rest. by repeat split. }
  intros rt.
  exact (first_failing_row_decides malformed_frame "lat" "lon" [] [good] bad [rest]
           TypeError Hlat Hlon Hrows (Hgood rt) (Hbad rt)).
Defined.
